(** * Edit logger: a shallow embedding of [src/extension.ts]

    The [Logger] class of the extension keeps three in-memory logs (edits and
    keystrokes, errors, executions), flushes them as one JSON snapshot to a
    numbered log-file part, and tracks at most one running Python process.

    The class is embedded as explicit state passing over a [World]: the
    mutable fields of the logger object, the part of the host it reads (file
    system, clock, active editor, open documents) and the trace of the
    effects it emits (file writes, timers, diagnostics, kill signals).
    Methods become computations in a small state-and-exception monad, so
    that [try]/[catch]/[finally] and early [return] read as in the source.

    Conventions of the embedding:
    - a JavaScript string is a [string]; one character stands for one code
      unit, so [.length] is [String.length];
    - a timestamp is the clock reading (milliseconds) it is rendered from;
    - the JSON text written to disk is kept as the record it serialises;
    - the file system is a finite map from paths to nodes that can be
      stat'ed and read; a missing path makes [statSync] and [readFileSync]
      throw, as in Node;
    - Node's [path] module is modelled in its POSIX flavour on paths that
      are already normalised. *)

From Stdlib Require Import Ascii ZArith Lia.
From stdpp Require Import base numbers option list strings pretty gmap.

Local Open Scope Z_scope.
Local Open Scope string_scope.

(** ** JavaScript strings *)

Module JS.

Definition LF : ascii := "010"%char.
Definition CR : ascii := "013"%char.
Definition nl : string := String LF "".
Definition crnl : string := String CR (String LF "").

(** A string is truthy when it is not empty. *)
Definition truthy (s : string) : bool := negb (bool_decide (s = "")).

(** [a || b] on a string and a possibly undefined string. *)
Definition or_undef (a : string) (b : option string) : option string :=
  if truthy a then Some a else b.

(** [a || b] where [b] is a string: the result is defined. *)
Definition or_str (a : option string) (b : string) : string :=
  match a with
  | Some s => if truthy s then s else b
  | None => b
  end.

Definition truthy_opt (a : option string) : bool :=
  match a with
  | Some s => truthy s
  | None => false
  end.

(** [s.startsWith(p)] *)
Fixpoint startsWith (p s : string) : bool :=
  match p, s with
  | "", _ => true
  | String a p', String b s' => bool_decide (a = b) && startsWith p' s'
  | String _ _, "" => false
  end.

(** [s.includes(sub)] *)
Fixpoint includes (sub s : string) : bool :=
  startsWith sub s ||
  match s with
  | "" => false
  | String _ s' => includes sub s'
  end.

(** [s.endsWith(suf)] *)
Fixpoint endsWith (suf s : string) : bool :=
  bool_decide (s = suf) ||
  match s with
  | "" => false
  | String _ s' => endsWith suf s'
  end.

(** [s.split(c)] for a one-character separator: never empty. *)
Fixpoint split (c : ascii) (s : string) : list string :=
  match s with
  | "" => [""]
  | String a s' =>
      if bool_decide (a = c) then "" :: split c s'
      else match split c s' with
           | l :: ls => String a l :: ls
           | [] => [String a ""]
           end
  end.

(** [l.join(sep)] *)
Fixpoint join (sep : string) (l : list string) : string :=
  match l with
  | [] => ""
  | [x] => x
  | x :: ((_ :: _) as l') => x +:+ sep +:+ join sep l'
  end.

(** [String(n).padStart(2, "0")] *)
Definition padStart2 (n : nat) : string :=
  let s := pretty n in
  if (String.length s <? 2)%nat then "0" +:+ s else s.

End JS.

(** ** Node's [path] module (POSIX flavour, normalised arguments) *)

Module path.

(** Split at the last occurrence of [c]. *)
Fixpoint rsplit (c : ascii) (s : string) : option (string * string) :=
  match s with
  | "" => None
  | String a s' =>
      match rsplit c s' with
      | Some (l, r) => Some (String a l, r)
      | None => if bool_decide (a = c) then Some ("", s') else None
      end
  end.

Definition basename (p : string) : string :=
  match rsplit "/" p with
  | Some (_, r) => r
  | None => p
  end.

Definition dirname (p : string) : string :=
  match rsplit "/" p with
  | Some ("", _) => "/"
  | Some (l, _) => l
  | None => "."
  end.

Definition extname (p : string) : string :=
  match rsplit "." (basename p) with
  | Some ("", _) => ""
  | Some (_, r) => "." +:+ r
  | None => ""
  end.

(** Remove the suffix [suf] from [s] when [s] ends with it. *)
Fixpoint stripSuffix (suf s : string) : string :=
  if bool_decide (s = suf) then ""
  else match s with
       | "" => ""
       | String a s' => if JS.endsWith suf s' then String a (stripSuffix suf s') else s
       end.

(** [path.basename(p, ext)] *)
Definition basename_ext (p ext : string) : string :=
  let b := basename p in
  if bool_decide (b = ext) then b
  else if JS.endsWith ext b then stripSuffix ext b else b.

(** [path.join(dir, name)] *)
Definition join (dir name : string) : string :=
  if bool_decide (dir = "") || bool_decide (dir = ".") then name
  else dir +:+ "/" +:+ name.

End path.

(** ** Data model *)

Definition Timestamp := Z.

Record Position := mkPosition { line : nat; character : nat }.

Record Range := mkRange { start : Position; end_ : Position }.

(** [interface EditLogEntry]: every field but the timestamp is optional, so
    that a key record fits the same array. *)
Module EditLogEntry.
Record t := mk {
  timestamp : Timestamp;
  range : option Range;
  text : option string;
  operation : option string;
  lineContent : option string;
  key : option string;
  position : option Position
}.
End EditLogEntry.

Module KeyLogEntry.
Record t := mk {
  timestamp : Timestamp;
  key : string;
  position : Position;
  lineContent : string
}.

(** A key record seen as an element of [editLog : EditLogEntry[]]. *)
Definition asEdit (k : t) : EditLogEntry.t :=
  {| EditLogEntry.timestamp := timestamp k;
     EditLogEntry.range := None;
     EditLogEntry.text := None;
     EditLogEntry.operation := None;
     EditLogEntry.lineContent := Some (lineContent k);
     EditLogEntry.key := Some (key k);
     EditLogEntry.position := Some (position k) |}.
End KeyLogEntry.

Module ErrorLogEntry.
Record t := mk {
  timestamp : Timestamp;
  message : string;
  stack : option string;
  code : option string;
  event : option string;
  language : option string
}.
End ErrorLogEntry.

Module ExecutionLogEntry.
Record t := mk {
  timestamp : Timestamp;
  event : string;
  file : string;
  language : string;
  output : option string;
  error : option string;
  exitCode : option Z;
  duration : option Z
}.
End ExecutionLogEntry.

(** A child process handle. *)
Definition ChildProcess := nat.

Module Execution.
Record t := mk {
  startTime : Z;
  file : string;
  process : option ChildProcess;
  output : string;
  error : string
}.
Definition set_process (p : option ChildProcess) (x : t) : t :=
  mk (startTime x) (file x) p (output x) (error x).
Definition set_output (o : string) (x : t) : t :=
  mk (startTime x) (file x) (process x) o (error x).
Definition set_error (e : string) (x : t) : t :=
  mk (startTime x) (file x) (process x) (output x) e.
End Execution.

(** The fields of [class Logger]. *)
Record Logger := mkLogger {
  logFolder : string;
  sessionId : string;
  studentId : string;
  currentDocument : string;
  logFile : string;
  editLog : list EditLogEntry.t;
  errorLog : list ErrorLogEntry.t;
  executionLog : list ExecutionLogEntry.t;
  isSaving : bool;
  saveTimeout : option nat;
  currentExecution : option Execution.t
}.

Definition set_studentId (v : string) (l : Logger) : Logger :=
  mkLogger (logFolder l) (sessionId l) v (currentDocument l) (logFile l)
    (editLog l) (errorLog l) (executionLog l) (isSaving l) (saveTimeout l)
    (currentExecution l).
Definition set_currentDocument (v : string) (l : Logger) : Logger :=
  mkLogger (logFolder l) (sessionId l) (studentId l) v (logFile l)
    (editLog l) (errorLog l) (executionLog l) (isSaving l) (saveTimeout l)
    (currentExecution l).
Definition set_logFile (v : string) (l : Logger) : Logger :=
  mkLogger (logFolder l) (sessionId l) (studentId l) (currentDocument l) v
    (editLog l) (errorLog l) (executionLog l) (isSaving l) (saveTimeout l)
    (currentExecution l).
Definition set_editLog (v : list EditLogEntry.t) (l : Logger) : Logger :=
  mkLogger (logFolder l) (sessionId l) (studentId l) (currentDocument l)
    (logFile l) v (errorLog l) (executionLog l) (isSaving l) (saveTimeout l)
    (currentExecution l).
Definition set_errorLog (v : list ErrorLogEntry.t) (l : Logger) : Logger :=
  mkLogger (logFolder l) (sessionId l) (studentId l) (currentDocument l)
    (logFile l) (editLog l) v (executionLog l) (isSaving l) (saveTimeout l)
    (currentExecution l).
Definition set_executionLog (v : list ExecutionLogEntry.t) (l : Logger) : Logger :=
  mkLogger (logFolder l) (sessionId l) (studentId l) (currentDocument l)
    (logFile l) (editLog l) (errorLog l) v (isSaving l) (saveTimeout l)
    (currentExecution l).
Definition set_isSaving (v : bool) (l : Logger) : Logger :=
  mkLogger (logFolder l) (sessionId l) (studentId l) (currentDocument l)
    (logFile l) (editLog l) (errorLog l) (executionLog l) v (saveTimeout l)
    (currentExecution l).
Definition set_saveTimeout (v : option nat) (l : Logger) : Logger :=
  mkLogger (logFolder l) (sessionId l) (studentId l) (currentDocument l)
    (logFile l) (editLog l) (errorLog l) (executionLog l) (isSaving l) v
    (currentExecution l).
Definition set_currentExecution (v : option Execution.t) (l : Logger) : Logger :=
  mkLogger (logFolder l) (sessionId l) (studentId l) (currentDocument l)
    (logFile l) (editLog l) (errorLog l) (executionLog l) (isSaving l)
    (saveTimeout l) v.

(** The object handed to [JSON.stringify] by [saveLog]. *)
Module LogData.
Record t := mk {
  studentId : string;
  sessionId : string;
  fileName : string;
  editLog : list EditLogEntry.t;
  errorLog : list ErrorLogEntry.t;
  executionLog : list ExecutionLogEntry.t
}.
End LogData.

Definition snapshot (l : Logger) : LogData.t :=
  {| LogData.studentId := studentId l;
     LogData.sessionId := sessionId l;
     LogData.fileName := currentDocument l;
     LogData.editLog := editLog l;
     LogData.errorLog := errorLog l;
     LogData.executionLog := executionLog l |}.

(** ** The host *)

(** [vscode.TextDocument], as far as the logger looks at it. *)
Record TextDocument := mkTextDocument {
  fileName : string;
  languageId : string;
  uri_scheme : string;
  doc_lines : list string;
  (** [vscode.workspace.getWorkspaceFolder(document.uri)?.uri.fsPath] *)
  doc_workspaceFolder : option string
}.

(** [vscode.TextDocumentContentChangeEvent] *)
Record ContentChange := mkContentChange {
  c_range : Range;
  c_rangeLength : nat;
  c_text : string
}.

Record TextDocumentChangeEvent := mkChangeEvent {
  document : TextDocument;
  contentChanges : list ContentChange
}.

(** A node of the file system: the size [statSync] reports and the text
    [readFileSync] returns. *)
Record FileNode := mkFileNode { stat_size : Z; content : string }.

(** Local calendar fields of a [Date]. *)
Record LocalDate := mkLocalDate {
  getFullYear : nat; getMonth : nat; getDate : nat;
  getHours : nat; getMinutes : nat; getSeconds : nat
}.

(** What the logger does to the outside. *)
Inductive Effect :=
| ConsoleError (msg : string) (detail : string)
| WriteFile (file : string) (data : LogData.t)
| MkDir (dir : string)
| SetTimeout (handle : nat) (ms : nat)
| ClearTimeout (handle : nat)
| Kill (p : ChildProcess).

Record World := mkWorld {
  this : Logger;
  fs : gmap string FileNode;
  (** the k-th reading of the clock, and how many were taken *)
  clock : nat -> Z;
  clockReads : nat;
  localTime : Z -> LocalDate;
  (** the next timer handle [setTimeout] returns *)
  timerSeq : nat;
  (** paths for which [fs.writeFile] throws before queueing the write *)
  writeRejects : string -> option string;
  (** [vscode.window.activeTextEditor?.selection.active] *)
  activeTextEditor : option Position;
  (** [vscode.workspace.textDocuments] *)
  textDocuments : list TextDocument;
  (** [getConfiguration('Logger').get('studentId')] *)
  cfg_studentId : option string;
  (** [workspaceFolders] as their [uri.fsPath], and [os.tmpdir()] *)
  workspaceFolders : list string;
  tmpdir : string;
  trace : list Effect
}.

Definition with_this (l : Logger) (w : World) : World :=
  mkWorld l (fs w) (clock w) (clockReads w) (localTime w) (timerSeq w)
    (writeRejects w) (activeTextEditor w) (textDocuments w) (cfg_studentId w)
    (workspaceFolders w) (tmpdir w) (trace w).
Definition with_fs (f : gmap string FileNode) (w : World) : World :=
  mkWorld (this w) f (clock w) (clockReads w) (localTime w) (timerSeq w)
    (writeRejects w) (activeTextEditor w) (textDocuments w) (cfg_studentId w)
    (workspaceFolders w) (tmpdir w) (trace w).
Definition with_clockReads (n : nat) (w : World) : World :=
  mkWorld (this w) (fs w) (clock w) n (localTime w) (timerSeq w)
    (writeRejects w) (activeTextEditor w) (textDocuments w) (cfg_studentId w)
    (workspaceFolders w) (tmpdir w) (trace w).
Definition with_timerSeq (n : nat) (w : World) : World :=
  mkWorld (this w) (fs w) (clock w) (clockReads w) (localTime w) n
    (writeRejects w) (activeTextEditor w) (textDocuments w) (cfg_studentId w)
    (workspaceFolders w) (tmpdir w) (trace w).
Definition with_trace (t : list Effect) (w : World) : World :=
  mkWorld (this w) (fs w) (clock w) (clockReads w) (localTime w) (timerSeq w)
    (writeRejects w) (activeTextEditor w) (textDocuments w) (cfg_studentId w)
    (workspaceFolders w) (tmpdir w) t.
(** The host moves the cursor (or closes the editor) between callbacks. *)
Definition with_activeTextEditor (p : option Position) (w : World) : World :=
  mkWorld (this w) (fs w) (clock w) (clockReads w) (localTime w) (timerSeq w)
    (writeRejects w) p (textDocuments w) (cfg_studentId w)
    (workspaceFolders w) (tmpdir w) (trace w).

(** ** Computations: state and exceptions *)

(** A call returns, throws, or (for the one loop of the program, run on
    fuel) is cut off. *)
Inductive result (A : Type) : Type :=
| Ok (a : A)
| Throw (e : string)
| OutOfFuel.
Arguments Ok {A} a.
Arguments Throw {A} e.
Arguments OutOfFuel {A}.

Definition M (A : Type) : Type := World -> result A * World.

Definition ret {A} (a : A) : M A := fun w => (Ok a, w).

Definition bind {A B} (m : M A) (k : A -> M B) : M B :=
  fun w =>
    match m w with
    | (Ok a, w') => k a w'
    | (Throw e, w') => (Throw e, w')
    | (OutOfFuel, w') => (OutOfFuel, w')
    end.

Definition throw {A} (e : string) : M A := fun w => (Throw e, w).

Definition outOfFuel {A} : M A := fun w => (OutOfFuel, w).

Declare Scope js_scope.
Delimit Scope js_scope with js.
Notation "x <- c1 ;; c2" := (bind c1 (fun x => c2))
  (at level 100, c1 at next level, right associativity) : js_scope.
Notation "c1 ;; c2" := (bind c1 (fun _ => c2))
  (at level 100, right associativity) : js_scope.
Local Open Scope js_scope.

(** [try { body } catch (e) { handler e }] *)
Definition try_catch {A} (body : M A) (handler : string -> M A) : M A :=
  fun w =>
    match body w with
    | (Throw e, w') => handler e w'
    | r => r
    end.

(** [try { body } finally { fin }] *)
Definition try_finally {A} (body : M A) (fin : M unit) : M A :=
  fun w =>
    match body w with
    | (OutOfFuel, w') => (OutOfFuel, w')
    | (r, w') =>
        match fin w' with
        | (Ok _, w'') => (r, w'')
        | (Throw e, w'') => (Throw e, w'')
        | (OutOfFuel, w'') => (OutOfFuel, w'')
        end
    end.

Definition getThis : M Logger := fun w => (Ok (this w), w).
Definition modifyThis (f : Logger -> Logger) : M unit :=
  fun w => (Ok tt, with_this (f (this w)) w).
Definition getWorld : M World := fun w => (Ok w, w).
Definition emit (e : Effect) : M unit :=
  fun w => (Ok tt, with_trace (trace w ++ [e]) w).

(** [array.forEach(f)] *)
Fixpoint forEach {A} (l : list A) (f : A -> M unit) : M unit :=
  match l with
  | [] => ret tt
  | x :: l' => f x ;; forEach l' f
  end.

(** ** Host services *)

(** [Date.now()] *)
Definition Date_now : M Z :=
  fun w => (Ok (clock w (clockReads w)), with_clockReads (S (clockReads w)) w).

(** [console.error(msg, detail)] *)
Definition console_error (msg detail : string) : M unit :=
  emit (ConsoleError msg detail).

Definition fs_existsSync (p : string) : M bool :=
  fun w => (Ok (bool_decide (is_Some (fs w !! p))), w).

Definition fs_statSync (p : string) : M FileNode :=
  fun w =>
    match fs w !! p with
    | Some n => (Ok n, w)
    | None => (Throw "ENOENT", w)
    end.

Definition fs_readFileSync (p : string) : M string :=
  fun w =>
    match fs w !! p with
    | Some n => (Ok (content n), w)
    | None => (Throw "ENOENT", w)
    end.

(** [fs.mkdirSync(p, { recursive: true })] *)
Definition fs_mkdirSync (p : string) : M unit :=
  fun w =>
    (Ok tt, with_trace (trace w ++ [MkDir p])
              (with_fs (<[p := mkFileNode 0 ""]> (fs w)) w)).

(** [fs.writeFile(p, data, 'utf8', callback)]: the request is queued and
    the callback runs later, unless the call itself is rejected. *)
Definition fs_writeFile (p : string) (data : LogData.t) : M unit :=
  fun w =>
    match writeRejects w p with
    | Some e => (Throw e, w)
    | None => (Ok tt, with_trace (trace w ++ [WriteFile p data]) w)
    end.

(** [setTimeout(callback, ms)] returns a fresh handle. *)
Definition setTimeout (ms : nat) : M nat :=
  fun w =>
    (Ok (timerSeq w),
     with_trace (trace w ++ [SetTimeout (timerSeq w) ms])
       (with_timerSeq (S (timerSeq w)) w)).

Definition clearTimeout (h : nat) : M unit := emit (ClearTimeout h).

(** [document.lineAt(n).text]: throws outside the document. *)
Definition lineAt (d : TextDocument) (n : nat) : M string :=
  match doc_lines d !! n with
  | Some l => ret l
  | None => throw "Illegal value for `line`"
  end.

(** ** The methods of [Logger] *)

(** [getLogFolderPath] *)
Definition getLogFolderPath : M string :=
  w <- getWorld ;;
  match workspaceFolders w with
  | workspaceFolder :: _ => ret (path.join workspaceFolder ".logs")
  | [] => ret (path.join (tmpdir w) ".logs")
  end.

(** [padZero] *)
Definition padZero (num : nat) : string := JS.padStart2 num.

(** [generateSessionId] *)
Definition generateSessionId : M string :=
  t <- Date_now ;;
  w <- getWorld ;;
  let now := localTime w t in
  ret ("session_" +:+ pretty (getFullYear now) +:+ padZero (getMonth now + 1)
       +:+ padZero (getDate now) +:+ "_" +:+ padZero (getHours now)
       +:+ padZero (getMinutes now) +:+ padZero (getSeconds now)).

(** [getCurrentTimestamp] *)
Definition getCurrentTimestamp : M Timestamp := Date_now.

(** [ensureFolder] *)
Definition ensureFolder (folderPath : string) : M unit :=
  ex <- fs_existsSync folderPath ;;
  if negb ex then fs_mkdirSync folderPath else ret tt.

(** [getConfiguration('Logger').get('studentId') || 'anonymous'] *)
Definition configuredStudentId (w : World) : string :=
  JS.or_str (cfg_studentId w) "anonymous".

(** [constructor] *)
Definition constructor : M unit :=
  logFolder <- getLogFolderPath ;;
  sessionId <- generateSessionId ;;
  w <- getWorld ;;
  modifyThis (fun _ =>
    {| logFolder := logFolder;
       sessionId := sessionId;
       studentId := configuredStudentId w;
       currentDocument := "";
       logFile := "";
       editLog := [];
       errorLog := [];
       executionLog := [];
       isSaving := false;
       saveTimeout := None;
       currentExecution := None |}) ;;
  ensureFolder logFolder.

(** [loadStudentId] *)
Definition loadStudentId : M unit :=
  w <- getWorld ;;
  modifyThis (set_studentId (configuredStudentId w)).

(** [shouldIgnoreDocument] *)
Definition shouldIgnoreDocument (l : Logger) (document : TextDocument) : bool :=
  let fileName := fileName document in
  let isLogFile :=
    JS.includes ".logs" fileName ||
    JS.endsWith ".json" fileName &&
      (JS.includes ("_" +:+ sessionId l +:+ ".json") fileName ||
       JS.includes (studentId l +:+ "_") fileName) in
  let isOutputOrTerminal :=
    bool_decide (uri_scheme document = "output") ||
    bool_decide (uri_scheme document = "terminal") ||
    JS.includes "extension-output" fileName ||
    JS.includes "Python Execution Log" fileName in
  isLogFile || isOutputOrTerminal.

(** The size above which a part is full: [1024 * 1024]. *)
Definition partLimit : Z := 1024 * 1024.

(** The name of part [partNumber] of the log file. *)
Definition partPath (dirName baseName ext : string) (partNumber : nat) : string :=
  path.join dirName (baseName +:+ "_part" +:+ pretty partNumber +:+ ext).

(** The [while] loop of [saveLog]: skip the parts that exist and are larger
    than the limit. The loop state is [partNumber] and [logFilePath]. *)
Fixpoint scanParts (fuel : nat) (dirName baseName ext : string)
    (partNumber : nat) (logFilePath : string) : M (nat * string) :=
  match fuel with
  | O => outOfFuel
  | S fuel' =>
      ex <- fs_existsSync logFilePath ;;
      full <- (if ex then
                 st <- fs_statSync logFilePath ;;
                 ret (bool_decide (partLimit < stat_size st))
               else ret false) ;;
      if full then
        let partNumber := S partNumber in
        scanParts fuel' dirName baseName ext partNumber
          (partPath dirName baseName ext partNumber)
      else ret (partNumber, logFilePath)
  end.

(** The callback given to [fs.writeFile]. *)
Definition writeFileCallback (err : option string) : M unit :=
  match err with
  | Some e => console_error "ログファイル書き込みエラー:" e
  | None => ret tt
  end.

(** [saveLog]. The [while] loop runs on fuel: one unit more than there are
    files, which is always enough since the parts have different paths. *)
Definition saveLog : M unit :=
  l <- getThis ;;
  if negb (JS.truthy (logFile l)) || isSaving l then ret tt
  else
    modifyThis (set_isSaving true) ;;
    let logData := snapshot l in
    try_finally
      (try_catch
         (let ext := path.extname (logFile l) in
          let baseName := path.basename_ext (logFile l) ext in
          let dirName := path.dirname (logFile l) in
          let partNumber := 1%nat in
          let logFilePath := partPath dirName baseName ext partNumber in
          w <- getWorld ;;
          r <- scanParts (S (size (fs w))) dirName baseName ext partNumber
                 logFilePath ;;
          fs_writeFile (snd r) logData)
         (fun error => console_error "Failed to save log:" error))
      (modifyThis (set_isSaving false)).

(** [scheduleSave]; the timer, when it fires, runs [saveLog]. *)
Definition scheduleSave : M unit :=
  l <- getThis ;;
  match saveTimeout l with
  | Some h => clearTimeout h
  | None => ret tt
  end ;;
  h <- setTimeout 1000 ;;
  modifyThis (set_saveTimeout (Some h)).

Definition onSaveTimeout : M unit := saveLog.

(** [onDocumentChange] *)
Definition onDocumentChange (document : TextDocument) : M unit :=
  let fileName := fileName document in
  l <- getThis ;;
  if shouldIgnoreDocument l document then ret tt
  else if negb (bool_decide (currentDocument l = fileName)) then
    modifyThis (set_currentDocument fileName) ;;
    folderPath <-
      match doc_workspaceFolder document with
      | Some fsPath =>
          let folderPath := path.join fsPath ".logs" in
          ensureFolder folderPath ;; ret folderPath
      | None => ret (logFolder l)
      end ;;
    modifyThis (set_logFile
      (path.join folderPath
         (studentId l +:+ "_" +:+ path.basename fileName +:+ "_"
          +:+ sessionId l +:+ ".json"))) ;;
    saveLog
  else ret tt.

(** [logEdit] *)
Definition logEdit (edit : ContentChange) (document : TextDocument) : M unit :=
  timestamp <- getCurrentTimestamp ;;
  lineContent <- lineAt document (line (start (c_range edit))) ;;
  let editInfo :=
    {| EditLogEntry.timestamp := timestamp;
       EditLogEntry.range := Some (c_range edit);
       EditLogEntry.text := Some (c_text edit);
       EditLogEntry.operation :=
         Some (if bool_decide (c_text edit = "") then "delete"
               else if bool_decide (0 < c_rangeLength edit)%nat
                       && negb (bool_decide (c_text edit = ""))
                    then "replace" else "insert");
       EditLogEntry.lineContent := Some lineContent;
       EditLogEntry.key := None;
       EditLogEntry.position := None |} in
  modifyThis (fun l => set_editLog (editLog l ++ [editInfo]) l) ;;
  scheduleSave.

(** [logKeyInput] *)
Definition logKeyInput (key : string) (document : TextDocument) : M unit :=
  w <- getWorld ;;
  match activeTextEditor w with
  | None => ret tt
  | Some position =>
      timestamp <- getCurrentTimestamp ;;
      lineContent <- lineAt document (line position) ;;
      let keyInfo :=
        {| KeyLogEntry.timestamp := timestamp;
           KeyLogEntry.key := key;
           KeyLogEntry.position :=
             mkPosition (line position) (character position);
           KeyLogEntry.lineContent := lineContent |} in
      modifyThis (fun l =>
        set_editLog (editLog l ++ [KeyLogEntry.asEdit keyInfo]) l) ;;
      l <- getThis ;;
      if bool_decide (length (editLog l) mod 10 = 0)%nat then scheduleSave
      else ret tt
  end.

(** [logPythonError] *)
Definition logPythonError (filePath errorMessage : string) : M unit :=
  let errorLines := JS.split JS.LF errorMessage in
  if bool_decide (1 < length errorLines)%nat then
    let message := default "" (head errorLines) in
    let errorStack := JS.join JS.nl (tail errorLines) in
    timestamp <- getCurrentTimestamp ;;
    ex <- fs_existsSync filePath ;;
    code <- (if ex then fs_readFileSync filePath else ret "") ;;
    let errorInfo :=
      {| ErrorLogEntry.timestamp := timestamp;
         ErrorLogEntry.message := message;
         ErrorLogEntry.stack := Some errorStack;
         ErrorLogEntry.code := Some code;
         ErrorLogEntry.event := Some "python_execution_error";
         ErrorLogEntry.language := Some "python" |} in
    modifyThis (fun l => set_errorLog (errorLog l ++ [errorInfo]) l)
  else
    timestamp <- getCurrentTimestamp ;;
    ex <- fs_existsSync filePath ;;
    code <- (if ex then fs_readFileSync filePath else ret "") ;;
    let errorInfo :=
      {| ErrorLogEntry.timestamp := timestamp;
         ErrorLogEntry.message := errorMessage;
         ErrorLogEntry.stack := None;
         ErrorLogEntry.code := Some code;
         ErrorLogEntry.event := Some "python_execution_error";
         ErrorLogEntry.language := Some "python" |} in
    modifyThis (fun l => set_errorLog (errorLog l ++ [errorInfo]) l).

(** [finishExecution] *)
Definition finishExecution (exitCode : Z) (errorMessage : option string) : M unit :=
  l <- getThis ;;
  match currentExecution l with
  | None => ret tt
  | Some cur =>
      now <- Date_now ;;
      let duration := now - Execution.startTime cur in
      timestamp <- getCurrentTimestamp ;;
      let executionInfo :=
        {| ExecutionLogEntry.timestamp := timestamp;
           ExecutionLogEntry.event := "execution_end";
           ExecutionLogEntry.file := Execution.file cur;
           ExecutionLogEntry.language := "python";
           ExecutionLogEntry.output := Some (Execution.output cur);
           ExecutionLogEntry.error :=
             JS.or_undef (Execution.error cur) errorMessage;
           ExecutionLogEntry.exitCode := Some exitCode;
           ExecutionLogEntry.duration := Some duration |} in
      modifyThis (fun l => set_executionLog (executionLog l ++ [executionInfo]) l) ;;
      (if negb (bool_decide (exitCode = 0))
          || JS.truthy (Execution.error cur)
          || JS.truthy_opt errorMessage
       then logPythonError (Execution.file cur)
              (JS.or_str (JS.or_undef (Execution.error cur) errorMessage)
                 "Unknown error")
       else ret tt) ;;
      modifyThis (set_currentExecution None) ;;
      scheduleSave
  end.

(** [process.kill()] *)
Definition process_kill (p : ChildProcess) : M unit := emit (Kill p).

(** [textDocuments.find(doc => doc.fileName === filePath)] *)
Fixpoint findDocument (filePath : string) (docs : list TextDocument)
    : option TextDocument :=
  match docs with
  | [] => None
  | doc :: docs' =>
      if bool_decide (fileName doc = filePath) then Some doc
      else findDocument filePath docs'
  end.

(** [startPythonExecution] *)
Definition startPythonExecution (filePath : string) : M unit :=
  l <- getThis ;;
  match currentExecution l with
  | Some cur =>
      match Execution.process cur with
      | Some p => process_kill p
      | None => ret tt
      end ;;
      finishExecution 1 (Some "Aborted by new execution")
  | None => ret tt
  end ;;
  startTime <- Date_now ;;
  modifyThis (set_currentExecution
    (Some {| Execution.startTime := startTime;
             Execution.file := filePath;
             Execution.process := None;
             Execution.output := "";
             Execution.error := "" |})) ;;
  w <- getWorld ;;
  match findDocument filePath (textDocuments w) with
  | Some document => onDocumentChange document
  | None => ret tt
  end ;;
  timestamp <- getCurrentTimestamp ;;
  let executionInfo :=
    {| ExecutionLogEntry.timestamp := timestamp;
       ExecutionLogEntry.event := "execution_start";
       ExecutionLogEntry.file := filePath;
       ExecutionLogEntry.language := "python";
       ExecutionLogEntry.output := None;
       ExecutionLogEntry.error := None;
       ExecutionLogEntry.exitCode := None;
       ExecutionLogEntry.duration := None |} in
  modifyThis (fun l => set_executionLog (executionLog l ++ [executionInfo]) l) ;;
  scheduleSave.

(** [setPythonProcess]: binds the handle; the four listeners it registers
    are the definitions that follow. *)
Definition setPythonProcess (process : ChildProcess) : M unit :=
  l <- getThis ;;
  match currentExecution l with
  | None => ret tt
  | Some cur =>
      modifyThis (set_currentExecution
        (Some (Execution.set_process (Some process) cur)))
  end.

(** [process.stdout.on('data', ...)] *)
Definition onStdoutData (data : string) : M unit :=
  l <- getThis ;;
  match currentExecution l with
  | Some cur =>
      modifyThis (set_currentExecution
        (Some (Execution.set_output (Execution.output cur +:+ data) cur)))
  | None => ret tt
  end.

(** [process.stderr.on('data', ...)] *)
Definition onStderrData (data : string) : M unit :=
  l <- getThis ;;
  match currentExecution l with
  | Some cur =>
      modifyThis (set_currentExecution
        (Some (Execution.set_error (Execution.error cur +:+ data) cur)))
  | None => ret tt
  end.

(** [process.on('exit', code => this.finishExecution(code || 0))];
    [None] is a [null] code. *)
Definition onProcessExit (code : option Z) : M unit :=
  finishExecution (match code with Some c => c | None => 0 end) None.

(** [process.on('error', err => ...)], with [err.message] *)
Definition onProcessError (err_message : string) : M unit :=
  l <- getThis ;;
  match currentExecution l with
  | Some cur =>
      modifyThis (set_currentExecution
        (Some (Execution.set_error (Execution.error cur +:+ err_message) cur)))
  | None => ret tt
  end ;;
  finishExecution 1 (Some err_message).

(** ** The document-change listener of [activate] *)

(** The body of [e.contentChanges.forEach]. *)
Definition onContentChange (document : TextDocument) (change : ContentChange)
    : M unit :=
  if bool_decide (1 <= String.length (c_text change))%nat
     && bool_decide (0 < c_rangeLength change)%nat
  then logEdit change document
  else if bool_decide (String.length (c_text change) = 1%nat)
          && bool_decide (c_rangeLength change = 0%nat)
  then logKeyInput (c_text change) document
  else if bool_decide (c_text change = "")
          && bool_decide (c_rangeLength change = 1%nat)
  then logKeyInput "Delete" document
  else if bool_decide (c_text change = JS.nl)
          || bool_decide (c_text change = JS.crnl)
  then logKeyInput "Enter" document
  else ret tt.

(** [vscode.workspace.onDidChangeTextDocument(e => ...)] *)
Definition onDidChangeTextDocument (e : TextDocumentChangeEvent) : M unit :=
  l <- getThis ;;
  if negb (bool_decide (languageId (document e) = "python"))
     || shouldIgnoreDocument l (document e)
  then ret tt
  else
    onDocumentChange (document e) ;;
    forEach (contentChanges e) (onContentChange (document e)).

(** ** Vocabulary of the statements *)

(** A part is full when it exists and is larger than the limit: the guard
    of the [while] loop of [saveLog]. *)
Definition partFull (w : World) (p : string) : bool :=
  match fs w !! p with
  | Some st => bool_decide (partLimit < stat_size st)
  | None => false
  end.

(** The part path [saveLog] scans for the current log file. *)
Definition logPart (l : Logger) (partNumber : nat) : string :=
  let ext := path.extname (logFile l) in
  partPath (path.dirname (logFile l)) (path.basename_ext (logFile l) ext) ext
    partNumber.

(** Part [n] is the first one, from 1 up, that is not full. *)
Definition firstFree (w : World) (n : nat) : Prop :=
  (1 <= n)%nat /\
  (forall k, (1 <= k < n)%nat -> partFull w (logPart (this w) k) = true) /\
  partFull w (logPart (this w) n) = false.

(** The fields a flush must leave alone. *)
Definition sameMemory (l l' : Logger) : Prop :=
  editLog l' = editLog l /\ errorLog l' = errorLog l /\
  executionLog l' = executionLog l /\ studentId l' = studentId l /\
  sessionId l' = sessionId l /\ currentDocument l' = currentDocument l /\
  logFile l' = logFile l.

Definition sameLogs (l l' : Logger) : Prop :=
  editLog l' = editLog l /\ errorLog l' = errorLog l /\
  executionLog l' = executionLog l.

Definition isSetTimeout (e : Effect) : bool :=
  match e with
  | SetTimeout _ _ => true
  | _ => false
  end.

Definition isWriteFile (e : Effect) : bool :=
  match e with
  | WriteFile _ _ => true
  | _ => false
  end.

(** How many flushes were scheduled along a trace. *)
Definition scheduledFlushes (t : list Effect) : nat :=
  length (filter (fun e => isSetTimeout e = true) t).

(** The one effect of a flush that reaches part [n]: the write, or the
    diagnostic when the write is refused. *)
Definition flushEffect (w : World) (n : nat) : Effect :=
  match writeRejects w (logPart (this w) n) with
  | None => WriteFile (logPart (this w) n) (snapshot (this w))
  | Some e => ConsoleError "Failed to save log:" e
  end.

(** The log file [onDocumentChange] computes for a document, and the
    logger once it has switched to it. *)
Definition docFolder (l : Logger) (d : TextDocument) : string :=
  match doc_workspaceFolder d with
  | Some fsPath => path.join fsPath ".logs"
  | None => logFolder l
  end.

Definition docTarget (l : Logger) (d : TextDocument) : string :=
  path.join (docFolder l d)
    (studentId l +:+ "_" +:+ path.basename (fileName d) +:+ "_"
     +:+ sessionId l +:+ ".json").

Definition retarget (l : Logger) (d : TextDocument) : Logger :=
  set_logFile (docTarget l d) (set_currentDocument (fileName d) l).

(** The message and the stack of an error record, as the specification
    words them: split the text on line feeds; with more than one line the
    first is the message and the others, joined again, are the stack; with
    one line the text is the message and there is no stack. *)
Definition errorMessageOf (errorText : string) : string :=
  match JS.split JS.LF errorText with
  | first :: _ :: _ => first
  | _ => errorText
  end.

Definition errorStackOf (errorText : string) : option string :=
  match JS.split JS.LF errorText with
  | _ :: ((_ :: _) as rest) => Some (JS.join JS.nl rest)
  | _ => None
  end.

(** Does [finishExecution] derive an error record? *)
Definition runFailed (cur : Execution.t) (exitCode : Z)
    (errorMessage : option string) : bool :=
  negb (bool_decide (exitCode = 0)) || JS.truthy (Execution.error cur)
  || JS.truthy_opt errorMessage.

Definition isExecutionEnd (r : ExecutionLogEntry.t) : bool :=
  bool_decide (ExecutionLogEntry.event r = "execution_end").

(** The [execution_end] record of a run. *)
Definition executionEnd (cur : Execution.t) (exitCode : Z)
    (errorMessage : option string) (timestamp : Timestamp) (duration : Z)
    : ExecutionLogEntry.t :=
  {| ExecutionLogEntry.timestamp := timestamp;
     ExecutionLogEntry.event := "execution_end";
     ExecutionLogEntry.file := Execution.file cur;
     ExecutionLogEntry.language := "python";
     ExecutionLogEntry.output := Some (Execution.output cur);
     ExecutionLogEntry.error := JS.or_undef (Execution.error cur) errorMessage;
     ExecutionLogEntry.exitCode := Some exitCode;
     ExecutionLogEntry.duration := Some duration |}.


(** The error record derived from an error text. *)
Definition pythonError (errorText : string) (timestamp : Timestamp)
    (code : string) : ErrorLogEntry.t :=
  {| ErrorLogEntry.timestamp := timestamp;
     ErrorLogEntry.message := errorMessageOf errorText;
     ErrorLogEntry.stack := errorStackOf errorText;
     ErrorLogEntry.code := Some code;
     ErrorLogEntry.event := Some "python_execution_error";
     ErrorLogEntry.language := Some "python" |}.

(** The text [finishExecution] hands to [logPythonError]. *)
Definition errorTextOf (cur : Execution.t) (errorMessage : option string)
    : string :=
  JS.or_str (JS.or_undef (Execution.error cur) errorMessage) "Unknown error".

(** ** Sample worlds *)

Module Sample.

Definition logger : Logger :=
  {| logFolder := "/ws/.logs";
     sessionId := "session_20250101_000000";
     studentId := "anonymous";
     currentDocument := "/ws/a.py";
     logFile := "/ws/.logs/anonymous_a.py_session_20250101_000000.json";
     editLog := [];
     errorLog := [];
     executionLog := [];
     isSaving := false;
     saveTimeout := None;
     currentExecution := None |}.

Definition host (l : Logger) (files : gmap string FileNode) : World :=
  {| this := l;
     fs := files;
     clock := fun k => 1000 * Z.of_nat k;
     clockReads := 0;
     localTime := fun _ => mkLocalDate 2025 0 1 0 0 0;
     timerSeq := 0;
     writeRejects := fun _ => None;
     activeTextEditor := Some (mkPosition 0 0);
     textDocuments := [];
     cfg_studentId := None;
     workspaceFolders := ["/ws"];
     tmpdir := "/tmp";
     trace := [] |}.

Definition part1 : string :=
  "/ws/.logs/anonymous_a.py_session_20250101_000000_part1.json".
Definition part2 : string :=
  "/ws/.logs/anonymous_a.py_session_20250101_000000_part2.json".

(** Part 1 exists and holds exactly 1,048,576 bytes. *)
Definition atLimit : World :=
  host logger {[ part1 := mkFileNode 1048576 "" ]}.

(** A key record already buffered. *)
Definition keyRecord : EditLogEntry.t :=
  KeyLogEntry.asEdit (KeyLogEntry.mk 0 "x" (mkPosition 0 0) "x").


(** Every write is refused. *)
Definition readOnly : World :=
  mkWorld logger ∅ (fun k => 1000 * Z.of_nat k) 0
    (fun _ => mkLocalDate 2025 0 1 0 0 0) 0 (fun _ => Some "EROFS")
    None [] None ["/ws"] "/tmp" [].

(** No target yet, one record buffered. *)
Definition untargeted : World :=
  host (set_editLog [keyRecord]
          (set_logFile "" (set_currentDocument "" logger))) ∅.

Definition a_py : TextDocument :=
  {| fileName := "/ws/a.py"; languageId := "python"; uri_scheme := "file";
     doc_lines := ["x"]; doc_workspaceFolder := Some "/ws" |}.

End Sample.

Module SampleRun.

(** A run in flight that has already written to its standard error. *)
Definition failing : Execution.t :=
  {| Execution.startTime := 0;
     Execution.file := "/ws/a.py";
     Execution.process := Some 7%nat;
     Execution.output := "";
     Execution.error := "Traceback (most recent call last):" |}.

(** A run in flight with nothing on its standard error. *)
Definition quiet : Execution.t :=
  {| Execution.startTime := 0;
     Execution.file := "/ws/a.py";
     Execution.process := Some 7%nat;
     Execution.output := "hello";
     Execution.error := "" |}.

Definition running (cur : Execution.t) : World :=
  Sample.host (set_currentExecution (Some cur) Sample.logger) ∅.

End SampleRun.

(** ** Typing and pasting *)

(** A content change that replaces nothing and inserts a text of two code
    units or more that is not a line break: a paste, a completion. *)
Definition isPaste (c : ContentChange) : Prop :=
  c_rangeLength c = 0%nat /\ (2 <= String.length (c_text c))%nat /\
  c_text c <> JS.nl /\ c_text c <> JS.crnl.





Module SampleTyping.

(** As after construction: no target, empty logs. *)
Definition fresh : World :=
  Sample.host (set_logFile "" (set_currentDocument "" Sample.logger)) ∅.

Fixpoint xs (k : nat) : string :=
  match k with
  | O => ""
  | S k' => String "x" (xs k')
  end.

(** The event of the [k]-th character typed into an empty file. *)
Definition keystroke (k : nat) : TextDocumentChangeEvent :=
  {| document :=
       {| fileName := "/ws/a.py"; languageId := "python";
          uri_scheme := "file"; doc_lines := [xs k];
          doc_workspaceFolder := Some "/ws" |};
     contentChanges :=
       [ {| c_range := mkRange (mkPosition 0 (k - 1)) (mkPosition 0 (k - 1));
            c_rangeLength := 0;
            c_text := "x" |} ] |}.

(** The world as the host delivers the [k]-th keystroke. *)
Definition before (k : nat) (w : World) : World :=
  with_activeTextEditor (Some (mkPosition 0 k)) w.


End SampleTyping.

(** ** The logger as the host drives it *)

(** The entry points the host calls: the public methods, the listeners
    registered by [setPythonProcess], the debounce timer and the callback
    of [fs.writeFile]. *)
Inductive Call :=
| DidChangeTextDocument (e : TextDocumentChangeEvent)
| OnDocumentChange (d : TextDocument)
| LogEdit (edit : ContentChange) (d : TextDocument)
| LogKeyInput (key : string) (d : TextDocument)
| LoadStudentId
| StartPythonExecution (filePath : string)
| SetPythonProcess (p : ChildProcess)
| StdoutData (data : string)
| StderrData (data : string)
| ProcessExit (code : option Z)
| ProcessError (err_message : string)
| SaveTimeout
| WriteFileDone (err : option string).

Definition perform (c : Call) : M unit :=
  match c with
  | DidChangeTextDocument e => onDidChangeTextDocument e
  | OnDocumentChange d => onDocumentChange d
  | LogEdit edit d => logEdit edit d
  | LogKeyInput key d => logKeyInput key d
  | LoadStudentId => loadStudentId
  | StartPythonExecution filePath => startPythonExecution filePath
  | SetPythonProcess p => setPythonProcess p
  | StdoutData data => onStdoutData data
  | StderrData data => onStderrData data
  | ProcessExit code => onProcessExit code
  | ProcessError err_message => onProcessError err_message
  | SaveTimeout => onSaveTimeout
  | WriteFileDone err => writeFileCallback err
  end.

(** Between two calls the host may change what it owns (files, editor,
    open documents, configuration); the logger object, the trace and the
    readings already taken from the clock stay. *)
Definition envStep (w w' : World) : Prop :=
  this w' = this w /\ trace w' = trace w /\
  clock w' = clock w /\ clockReads w' = clockReads w.

(** [reaches w w']: the host gets from [w] to [w'] by calls, whatever their
    outcome, and by changes of its own. *)
Inductive reaches : World -> World -> Prop :=
| reaches_refl (w : World) : reaches w w
| reaches_call (w w1 : World) (c : Call) :
    reaches w w1 -> reaches w (snd (perform c w1))
| reaches_env (w w1 w2 : World) :
    reaches w w1 -> envStep w1 w2 -> reaches w w2.

(** A world the extension can be in: the logger was constructed, with
    nothing traced before, and the host went on from there. *)
Definition reachable (w : World) : Prop :=
  exists w0, trace w0 = [] /\ reaches (snd (constructor w0)) w.

(** A computation respects a relation when the world it leaves, whatever
    the outcome, is related to the world it was given. *)
Definition respects (R : World -> World -> Prop) {A} (m : M A) : Prop :=
  forall w, R w (snd (m w)).

(** The logs only grow, the session keeps its identity. *)
Definition growsL (l l' : Logger) : Prop :=
  editLog l `prefix_of` editLog l' /\
  errorLog l `prefix_of` errorLog l' /\
  executionLog l `prefix_of` executionLog l' /\
  sessionId l' = sessionId l /\ logFolder l' = logFolder l.

Definition grows (w w' : World) : Prop :=
  growsL (this w) (this w') /\ trace w `prefix_of` trace w'.

(** The timers armed and not cleared along a trace. *)
Definition timerStep (armed : list nat) (e : Effect) : list nat :=
  match e with
  | SetTimeout h _ => armed ++ [h]
  | ClearTimeout h => filter (fun k => k <> h) armed
  | _ => armed
  end.

Definition armedTimers (t : list Effect) : list nat :=
  fold_left timerStep t [].

(** Every snapshot written so far is an earlier state of the logs. *)
Definition snapshotOf (d : LogData.t) (l : Logger) : Prop :=
  LogData.editLog d `prefix_of` editLog l /\
  LogData.errorLog d `prefix_of` errorLog l /\
  LogData.executionLog d `prefix_of` executionLog l /\
  LogData.sessionId d = sessionId l.

(** What holds between any two calls. *)
Definition steady (w : World) : Prop :=
  isSaving (this w) = false /\
  studentId (this w) <> "" /\
  armedTimers (trace w) = option_list (saveTimeout (this w)) /\
  (forall p d, WriteFile p d ∈ trace w -> snapshotOf d (this w)) /\
  JS.includes ".logs" (logFolder (this w)) = true.

(** [grows], and [steady] is kept. *)
Definition step (w w' : World) : Prop :=
  grows w w' /\ (steady w -> steady w').

(** ** Output chunks *)

(** The text a call brings on the standard output, and on the standard
    error, of the attached process. *)
Definition stdoutOf (c : Call) : string :=
  match c with
  | StdoutData data => data
  | _ => ""
  end.

Definition stderrOf (c : Call) : string :=
  match c with
  | StderrData data => data
  | _ => ""
  end.

Definition isData (c : Call) : Prop :=
  match c with
  | StdoutData _ | StderrData _ => True
  | _ => False
  end.

Definition joinAll (l : list string) : string := foldr String.append "" l.

(** The run after the chunks of [cs] have arrived. *)
Definition fed (cur : Execution.t) (cs : list Call) : Execution.t :=
  Execution.set_error (Execution.error cur +:+ joinAll (stderrOf <$> cs))
    (Execution.set_output (Execution.output cur +:+ joinAll (stdoutOf <$> cs))
       cur).


(** [code || 0] of the exit listener. *)
Definition exitCodeOf (code : option Z) : Z :=
  match code with
  | Some c => c
  | None => 0
  end.

(** The world once the process bound to the run, if any, was sent the
    kill signal. *)
Definition killed (cur : Execution.t) (w : World) : World :=
  match Execution.process cur with
  | Some p => with_trace (trace w ++ [Kill p]) w
  | None => w
  end.

(** ** What the listener records *)

(** The record one content change can add to the edit log: an edit
    record labelled "replace" for a non-empty text over a non-empty range,
    or a key record for one typed character, for one deleted character, or
    for a carriage return and line feed. *)
Definition recordedFor (c : ContentChange) (r : EditLogEntry.t) : Prop :=
  (EditLogEntry.key r = None /\
   EditLogEntry.operation r = Some "replace" /\
   EditLogEntry.text r = Some (c_text c) /\
   EditLogEntry.range r = Some (c_range c) /\
   c_text c <> "" /\ (0 < c_rangeLength c)%nat) \/
  (exists k : KeyLogEntry.t,
     r = KeyLogEntry.asEdit k /\
     ((KeyLogEntry.key k = c_text c /\
       String.length (c_text c) = 1%nat /\ c_rangeLength c = 0%nat) \/
      (KeyLogEntry.key k = "Delete" /\
       c_text c = "" /\ c_rangeLength c = 1%nat) \/
      (KeyLogEntry.key k = "Enter" /\
       c_text c = JS.crnl /\ c_rangeLength c = 0%nat))).

(** A record as the listener makes them. *)
Definition listenerRecord (r : EditLogEntry.t) : Prop :=
  is_Some (EditLogEntry.key r) \/ EditLogEntry.operation r = Some "replace".

(** A change that deletes nothing or more than one character and inserts
    nothing. *)
Definition isBulkDelete (c : ContentChange) : Prop :=
  c_text c = "" /\ c_rangeLength c <> 1%nat.

(** ** Timestamps *)

From Stdlib Require Import Sorted.

(** The clock never goes back. *)
Definition monotoneClock (w : World) : Prop :=
  forall i j : nat, (i <= j)%nat -> clock w i <= clock w j.

(** The timestamps [ts] are in order and none is later than a reading of
    the clock [clk] from the [n]-th on. *)
Definition chronoL (clk : nat -> Z) (n : nat) (ts : list Z) : Prop :=
  StronglySorted Z.le ts /\
  Forall (fun t => forall k, (n <= k)%nat -> t <= clk k) ts.

Definition chrono (w : World) : Prop :=
  chronoL (clock w) (clockReads w)
    (EditLogEntry.timestamp <$> editLog (this w)) /\
  chronoL (clock w) (clockReads w)
    (ErrorLogEntry.timestamp <$> errorLog (this w)) /\
  chronoL (clock w) (clockReads w)
    (ExecutionLogEntry.timestamp <$> executionLog (this w)).

(** The clock is the same, was read on, and the logs stay in order. *)
Definition ticks (w w' : World) : Prop :=
  clock w' = clock w /\ (clockReads w <= clockReads w')%nat /\
  (monotoneClock w -> chrono w -> chrono w').

(** * Properties *)

(** ** Strings and paths *)

Lemma string_length_app (s t : string) :
  String.length (s +:+ t) = (String.length s + String.length t)%nat.
Proof. induction s as [|a s IH]; simpl; [reflexivity | now rewrite IH]. Qed.

Lemma string_app_inv_tail (s1 s2 t : string) :
  s1 +:+ t = s2 +:+ t -> s1 = s2.
Proof.
  revert s2. induction s1 as [|a s1 IH]; intros [|b s2] H.
  - reflexivity.
  - apply (f_equal String.length) in H.
    rewrite !string_length_app in H. simpl in H. lia.
  - apply (f_equal String.length) in H.
    rewrite !string_length_app in H. simpl in H. lia.
  - change (String a (s1 +:+ t) = String b (s2 +:+ t)) in H.
    injection H as -> H. f_equal. now apply IH.
Qed.

Lemma split_nonempty (c : ascii) (s : string) : JS.split c s <> [].
Proof.
  destruct s as [|a s]; simpl; [discriminate|].
  case_bool_decide; [discriminate|]. destruct (JS.split c s); discriminate.
Qed.

(** Joining what was split gives the text back. *)
Lemma join_split (s : string) : JS.join JS.nl (JS.split JS.LF s) = s.
Proof.
  induction s as [|a s IH]; simpl; [reflexivity|].
  pose proof (split_nonempty JS.LF s) as Hne.
  case_bool_decide as Ha.
  - subst a. destruct (JS.split JS.LF s) as [|x xs] eqn:E; [done|].
    change (JS.join JS.nl ("" :: x :: xs)) with (JS.nl +:+ JS.join JS.nl (x :: xs)).
    now rewrite IH.
  - destruct (JS.split JS.LF s) as [|x xs] eqn:E; [done|].
    destruct xs as [|y ys]; simpl in *; now rewrite <- IH.
Qed.

Lemma startsWith_nl (s : string) : JS.startsWith JS.nl (String JS.LF s) = true.
Proof. reflexivity. Qed.

Lemma includes_cons (sub : string) (a : ascii) (s : string) :
  JS.includes sub (String a s)
  = JS.startsWith sub (String a s) || JS.includes sub s.
Proof. reflexivity. Qed.

(** A text without a line feed is one line. *)
Lemma split_one_line (s : string) :
  JS.includes JS.nl s = false -> JS.split JS.LF s = [s].
Proof.
  induction s as [|a s IH]; [reflexivity|].
  rewrite includes_cons. intros [H1 H2]%orb_false_iff.
  simpl. case_bool_decide as Ha.
  - subst a. rewrite startsWith_nl in H1. discriminate.
  - rewrite IH by exact H2. reflexivity.
Qed.

(** The first line and the rest of a text with a line feed. *)
Lemma split_first_line (first rest : string) :
  JS.includes JS.nl first = false ->
  JS.split JS.LF (first +:+ JS.nl +:+ rest) = first :: JS.split JS.LF rest.
Proof.
  induction first as [|a s IH].
  - intros _. change ("" +:+ JS.nl +:+ rest) with (String JS.LF rest).
    reflexivity.
  - rewrite includes_cons. intros [H1 H2]%orb_false_iff.
    change (String a s +:+ JS.nl +:+ rest) with (String a (s +:+ JS.nl +:+ rest)).
    simpl. rewrite (IH H2).
    case_bool_decide as Ha; [|reflexivity].
    subst a. rewrite startsWith_nl in H1. discriminate.
Qed.

Lemma join_nonempty (dir name : string) : name <> "" -> path.join dir name <> "".
Proof.
  unfold path.join. intros Hn. destruct (_ || _); [exact Hn|].
  destruct dir; discriminate.
Qed.

Lemma join_inj (dir : string) : Inj (=) (=) (path.join dir).
Proof.
  intros a b. unfold path.join. destruct (_ || _); [done|].
  intros H. apply (inj (String.app dir)) in H. now injection H.
Qed.

Lemma partPath_inj (dirName baseName ext : string) :
  Inj (=) (=) (partPath dirName baseName ext).
Proof.
  intros n m H. unfold partPath in H. apply join_inj in H.
  apply (inj (String.app baseName)) in H.
  apply (inj (String.app "_part")) in H.
  apply string_app_inv_tail in H. now apply (inj pretty) in H.
Qed.

(** ** The scan of the parts *)

Section Scan.
Variables dirName baseName ext : string.

Lemma scanParts_run (fuel : nat) : forall (start : nat) (w : World),
  match scanParts fuel dirName baseName ext start
          (partPath dirName baseName ext start) w with
  | (Ok (n, p), w') =>
      w' = w /\ p = partPath dirName baseName ext n /\
      (start <= n < start + fuel)%nat /\
      (forall k, (start <= k < n)%nat ->
         partFull w (partPath dirName baseName ext k) = true) /\
      partFull w (partPath dirName baseName ext n) = false
  | (Throw _, _) => False
  | (OutOfFuel, w') =>
      w' = w /\
      forall k, (start <= k < start + fuel)%nat ->
        partFull w (partPath dirName baseName ext k) = true
  end.
Proof.
  induction fuel as [|fuel IH]; intros start w.
  - simpl. split; [reflexivity | intros k Hk; lia].
  - simpl. unfold bind at 1, fs_existsSync.
    destruct (fs w !! partPath dirName baseName ext start) as [st|] eqn:Hst.
    + rewrite bool_decide_eq_true_2 by eauto.
      unfold bind at 1 2, fs_statSync, ret. rewrite Hst.
      destruct (bool_decide (partLimit < stat_size st)) eqn:Hfull.
      * specialize (IH (S start) w).
        destruct (scanParts fuel dirName baseName ext (S start) _ w)
          as [[[n p]|e|] w'].
        -- destruct IH as (-> & -> & Hn & Hlt & Hfree).
           repeat split; [lia | lia | | exact Hfree].
           intros k Hk. destruct (decide (k = start)) as [->|Hne].
           ++ unfold partFull. now rewrite Hst.
           ++ apply Hlt. lia.
        -- exact IH.
        -- destruct IH as (-> & Hall). split; [reflexivity|].
           intros k Hk. destruct (decide (k = start)) as [->|Hne].
           ++ unfold partFull. now rewrite Hst.
           ++ apply Hall. lia.
      * repeat split; [lia | lia | intros k Hk; lia |].
        unfold partFull. now rewrite Hst.
    + rewrite bool_decide_eq_false_2 by (intros [x Hx]; discriminate).
      unfold bind, ret.
      repeat split; [lia | lia | intros k Hk; lia |].
      unfold partFull. now rewrite Hst.
Qed.

(** The parts all have different paths, so only as many of them as there
    are files can be full. *)
Lemma full_parts_bounded (w : World) (m : nat) :
  (forall k, (1 <= k < 1 + m)%nat ->
     partFull w (partPath dirName baseName ext k) = true) ->
  (m <= size (fs w))%nat.
Proof.
  intros Hall.
  set (l := partPath dirName baseName ext <$> seq 1 m).
  assert (Hnd : NoDup l).
  { apply (NoDup_fmap_2 _ (Inj0 := partPath_inj dirName baseName ext)), NoDup_seq. }
  assert (Hsub : list_to_set (C := gset string) l ⊆ dom (fs w)).
  { intros p Hp. apply elem_of_list_to_set in Hp.
    apply list_elem_of_fmap in Hp as (k & -> & Hk).
    apply elem_of_seq in Hk. specialize (Hall k Hk).
    unfold partFull in Hall. apply elem_of_dom.
    destruct (fs w !! _); [eauto | discriminate]. }
  apply subseteq_size in Hsub.
  rewrite size_list_to_set in Hsub by exact Hnd.
  rewrite size_dom in Hsub. unfold l in Hsub.
  rewrite length_fmap, length_seq in Hsub. exact Hsub.
Qed.

(** With one unit of fuel more than there are files the scan finds a part. *)
Lemma scanParts_total (w : World) :
  exists n,
    scanParts (S (size (fs w))) dirName baseName ext 1
      (partPath dirName baseName ext 1) w
    = (Ok (n, partPath dirName baseName ext n), w) /\
    (1 <= n)%nat /\
    (forall k, (1 <= k < n)%nat ->
       partFull w (partPath dirName baseName ext k) = true) /\
    partFull w (partPath dirName baseName ext n) = false.
Proof.
  pose proof (scanParts_run (S (size (fs w))) 1 w) as H.
  destruct (scanParts _ _ _ _ _ _ w) as [[[n p]|e|] w'].
  - destruct H as (-> & -> & Hn & Hlt & Hfree). exists n.
    repeat split; [lia | exact Hlt | exact Hfree].
  - destruct H.
  - destruct H as (_ & Hall). apply full_parts_bounded in Hall. lia.
Qed.

End Scan.

Lemma firstFree_unique (w : World) (n m : nat) :
  firstFree w n -> firstFree w m -> n = m.
Proof.
  intros (Hn1 & Hn2 & Hn3) (Hm1 & Hm2 & Hm3).
  destruct (Nat.lt_trichotomy n m) as [Hlt | [Heq | Hgt]]; [|exact Heq|].
  - rewrite Hm2 in Hn3 by lia. discriminate.
  - rewrite Hn2 in Hm3 by lia. discriminate.
Qed.

(** ** What one flush does *)

Lemma saveLog_skip (w : World) :
  negb (JS.truthy (logFile (this w))) || isSaving (this w) = true ->
  saveLog w = (Ok tt, w).
Proof.
  intros H. unfold saveLog, bind at 1, getThis. now rewrite H.
Qed.

Lemma saveLog_flush (w : World) :
  logFile (this w) <> "" -> isSaving (this w) = false ->
  exists n, firstFree w n /\
    saveLog w = (Ok tt, with_trace (trace w ++ [flushEffect w n]) w).
Proof.
  intros Hfile Hsaving.
  destruct (scanParts_total (path.dirname (logFile (this w)))
              (path.basename_ext (logFile (this w)) (path.extname (logFile (this w))))
              (path.extname (logFile (this w)))
              (with_this (set_isSaving true (this w)) w))
    as (n & Hscan & Hn1 & Hn2 & Hn3).
  exists n. split; [repeat split; assumption|].
  unfold saveLog, bind at 1, getThis.
  replace (negb (JS.truthy (logFile (this w))) || isSaving (this w)) with false
    by (unfold JS.truthy; rewrite bool_decide_eq_false_2 by exact Hfile;
        now rewrite Hsaving).
  unfold bind at 1, modifyThis.
  unfold try_finally, try_catch, bind at 1, getWorld.
  unfold bind at 1. cbv zeta. rewrite Hscan.
  unfold fs_writeFile, flushEffect, logPart. simpl snd.
  change (writeRejects (with_this (set_isSaving true (this w)) w))
    with (writeRejects w).
  destruct (writeRejects w _) as [e|].
  - unfold console_error, emit.
    destruct w as [l ? ? ? ? ? ? ? ? ? ? ? ?]; destruct l; simpl in *.
    subst. reflexivity.
  - destruct w as [l ? ? ? ? ? ? ? ? ? ? ? ?]; destruct l; simpl in *.
    subst. reflexivity.
Qed.

(** A flush always returns, and changes nothing but the trace. *)
Lemma saveLog_run (w : World) :
  exists t, saveLog w = (Ok tt, with_trace (trace w ++ t) w) /\
    (t = [] \/ exists n, firstFree w n /\ t = [flushEffect w n]).
Proof.
  destruct (negb (JS.truthy (logFile (this w))) || isSaving (this w)) eqn:G.
  - exists []. split; [|now left].
    rewrite saveLog_skip by exact G. rewrite app_nil_r.
    now destruct w.
  - apply orb_false_iff in G as [G1 G2].
    destruct (saveLog_flush w) as (n & Hn & Hrun).
    + apply negb_false_iff in G1. unfold JS.truthy in G1.
      now apply negb_true_iff, bool_decide_eq_false in G1.
    + exact G2.
    + exists [flushEffect w n]. split; [exact Hrun | right; eauto].
Qed.

(** ** Switching the target document *)

Lemma docTarget_nonempty (l : Logger) (d : TextDocument) : docTarget l d <> "".
Proof.
  unfold docTarget. apply join_nonempty.
  intros H. apply (f_equal String.length) in H.
  rewrite !string_length_app in H. simpl in H. lia.
Qed.

(** [onDocumentChange] on a document that is not ignored and is not the
    current one: the folder is made when the document has a workspace
    folder that lacks it, the target is set, and one flush runs. *)
Lemma onDocumentChange_switch (d : TextDocument) (w : World) :
  shouldIgnoreDocument (this w) d = false ->
  currentDocument (this w) <> fileName d ->
  exists (mk : list Effect) (F : gmap string FileNode),
    let w2 := with_trace (trace w ++ mk)
                (with_fs F (with_this (retarget (this w) d) w)) in
    (mk = [] \/ mk = [MkDir (docFolder (this w) d)]) /\
    onDocumentChange d w = saveLog w2.
Proof.
  intros Hig Hcur. unfold onDocumentChange, bind at 1, getThis.
  rewrite Hig. rewrite bool_decide_eq_false_2 by exact Hcur. simpl negb. cbv iota.
  unfold bind at 1, modifyThis. unfold bind at 1.
  unfold retarget, docTarget, docFolder.
  destruct (doc_workspaceFolder d) as [fsPath|].
  - unfold ensureFolder, fs_existsSync, ret, bind, modifyThis. simpl.
    case_bool_decide; simpl.
    + exists [], (fs w). split; [now left|].
      rewrite app_nil_r. now destruct w.
    + exists [MkDir (path.join fsPath ".logs")],
             (<[path.join fsPath ".logs" := mkFileNode 0 ""]> (fs w)).
      split; [now right | reflexivity].
  - exists [], (fs w). split; [now left|].
    unfold ret, bind, modifyThis. simpl.
    rewrite app_nil_r. now destruct w.
Qed.

(** Whatever the document, [onDocumentChange] returns; it may change the
    target, the file system and the trace, and nothing else. *)
Lemma onDocumentChange_run (d : TextDocument) (w : World) :
  exists (L : Logger) (F : gmap string FileNode) (t : list Effect),
    onDocumentChange d w
    = (Ok tt, with_trace (trace w ++ t) (with_fs F (with_this L w))) /\
    (L = this w \/ L = retarget (this w) d) /\
    scheduledFlushes t = 0%nat.
Proof.
  destruct (shouldIgnoreDocument (this w) d) eqn:Hig.
  { exists (this w), (fs w), []. split; [|split; [now left | reflexivity]].
    unfold onDocumentChange, bind at 1, getThis. rewrite Hig.
    rewrite app_nil_r. now destruct w. }
  destruct (decide (currentDocument (this w) = fileName d)) as [Hcur|Hcur].
  { exists (this w), (fs w), []. split; [|split; [now left | reflexivity]].
    unfold onDocumentChange, bind at 1, getThis. rewrite Hig.
    rewrite bool_decide_eq_true_2 by exact Hcur.
    rewrite app_nil_r. now destruct w. }
  destruct (onDocumentChange_switch d w Hig Hcur) as (mk & F & Hmk & Hrun).
  cbv zeta in Hrun. rewrite Hrun.
  match type of Hrun with _ = saveLog ?w2 =>
    destruct (saveLog_run w2) as (t & Ht & Hcase) end.
  rewrite Ht. exists (retarget (this w) d), F, (mk ++ t)%list.
  split; [|split; [now right|]].
  - simpl. rewrite app_assoc. reflexivity.
  - unfold scheduledFlushes. rewrite filter_app, length_app.
    destruct Hmk as [-> | ->];
      destruct Hcase as [-> | (n & _ & ->)]; try reflexivity;
      unfold flushEffect; destruct (writeRejects _ _); reflexivity.
Qed.

(** ** Flushing: part selection, the saving flag, failures, no target *)

(** C1 (as the code has it). A flush that passes its guard writes to the
    first part, counting from 1, that does not exist or whose size is at
    most 1,048,576 bytes: the loop skips a part only when it is larger than
    the limit. Such a part always exists, and the write carries the full
    snapshot. *)
Theorem C1_flush_targets_first_part_not_over_limit (w : World) :
  logFile (this w) <> "" -> isSaving (this w) = false ->
  partLimit = 1048576 /\
  exists n : nat,
    (1 <= n)%nat /\
    (forall k, (1 <= k < n)%nat ->
       exists st, fs w !! logPart (this w) k = Some st /\
                  1048576 < stat_size st) /\
    (fs w !! logPart (this w) n = None \/
     exists st, fs w !! logPart (this w) n = Some st /\
                stat_size st <= 1048576) /\
    saveLog w = (Ok tt, with_trace (trace w ++ [flushEffect w n]) w) /\
    (writeRejects w (logPart (this w) n) = None ->
     flushEffect w n = WriteFile (logPart (this w) n) (snapshot (this w))).
Proof.
  intros Hfile Hsaving. split; [reflexivity|].
  destruct (saveLog_flush w Hfile Hsaving) as (n & (Hn1 & Hn2 & Hn3) & Hrun).
  exists n. repeat split.
  - exact Hn1.
  - intros k Hk. specialize (Hn2 k Hk). unfold partFull in Hn2.
    destruct (fs w !! logPart (this w) k) as [st|]; [|discriminate].
    exists st. split; [reflexivity|].
    apply bool_decide_eq_true in Hn2. exact Hn2.
  - unfold partFull in Hn3.
    destruct (fs w !! logPart (this w) n) as [st|]; [right | now left].
    exists st. split; [reflexivity|].
    apply bool_decide_eq_false in Hn3. unfold partLimit in Hn3. lia.
  - exact Hrun.
  - intros Hw. unfold flushEffect. now rewrite Hw.
Qed.

Lemma C1_flush_targets_first_part_witness :
  partLimit = 1048576 /\
  exists n : nat,
    (1 <= n)%nat /\
    (forall k, (1 <= k < n)%nat ->
       exists st, fs Sample.atLimit !! logPart (this Sample.atLimit) k = Some st /\
                  1048576 < stat_size st) /\
    (fs Sample.atLimit !! logPart (this Sample.atLimit) n = None \/
     exists st, fs Sample.atLimit !! logPart (this Sample.atLimit) n = Some st /\
                stat_size st <= 1048576) /\
    saveLog Sample.atLimit
    = (Ok tt, with_trace (trace Sample.atLimit ++ [flushEffect Sample.atLimit n])
                Sample.atLimit) /\
    (writeRejects Sample.atLimit (logPart (this Sample.atLimit) n) = None ->
     flushEffect Sample.atLimit n
     = WriteFile (logPart (this Sample.atLimit) n) (snapshot (this Sample.atLimit))).
Proof.
  apply (C1_flush_targets_first_part_not_over_limit Sample.atLimit).
  - discriminate.
  - reflexivity.
Defined.

(** C1, the claim as written fails: part 1 exists with exactly 1,048,576
    bytes, and the flush writes to part 1 again, not to part 2. *)
Lemma C1_part_at_limit_is_rewritten :
  fs Sample.atLimit !! Sample.part1 = Some (mkFileNode 1048576 "") /\
  Sample.part1 <> Sample.part2 /\
  saveLog Sample.atLimit
  = (Ok tt,
     with_trace [WriteFile Sample.part1 (snapshot Sample.logger)] Sample.atLimit).
Proof.
  split; [|split].
  - vm_compute. reflexivity.
  - discriminate.
  - vm_compute. reflexivity.
Qed.




(** The flag is clear again when a flush returns. *)
Lemma saveLog_leaves_flag_clear (w : World) :
  isSaving (this w) = false -> isSaving (this (snd (saveLog w))) = false.
Proof.
  intros H. destruct (saveLog_run w) as (t & -> & _). exact H.
Qed.

(** C7. A flush returns normally whatever the write does. A write that
    is refused on the spot is reported on the console, one that fails
    later is reported by the callback; in both cases every field of the
    logger is as before, and any write a flush issues carries the full
    snapshot of the logger. *)
Theorem C7_failed_flush_keeps_memory (w : World) :
  exists w',
    saveLog w = (Ok tt, w') /\
    this w' = this w /\ sameMemory (this w) (this w') /\
    (forall n e,
       logFile (this w) <> "" -> isSaving (this w) = false ->
       firstFree w n -> writeRejects w (logPart (this w) n) = Some e ->
       w' = with_trace (trace w ++ [ConsoleError "Failed to save log:" e]) w) /\
    (forall err, exists w'',
       writeFileCallback err w' = (Ok tt, w'') /\ this w'' = this w') /\
    (forall p d, WriteFile p d ∈ trace w' ->
       WriteFile p d ∈ trace w \/ d = snapshot (this w)).
Proof.
  destruct (saveLog_run w) as (t & Hrun & Hcase).
  exists (with_trace (trace w ++ t) w). split; [exact Hrun|].
  split; [reflexivity|]. split; [repeat split|]. split; [|split].
  - intros n e Hfile Hsaving Hn He.
    destruct (saveLog_flush w Hfile Hsaving) as (m & Hm & Hrun').
    rewrite (firstFree_unique w m n Hm Hn) in Hrun'.
    rewrite Hrun in Hrun'. injection Hrun' as ->.
    unfold flushEffect. now rewrite He.
  - intros [e|]; eexists; (split; [reflexivity|]); reflexivity.
  - intros p d Hin. simpl in Hin. apply elem_of_app in Hin as [Hin|Hin];
      [now left|right].
    destruct Hcase as [-> | (n & _ & ->)].
    + inversion Hin.
    + apply list_elem_of_singleton in Hin. unfold flushEffect in Hin.
      destruct (writeRejects w _); congruence.
Qed.

Lemma C7_failed_flush_witness :
  saveLog Sample.readOnly
  = (Ok tt, with_trace [ConsoleError "Failed to save log:" "EROFS"] Sample.readOnly)
  /\ sameMemory (this Sample.readOnly) (this (snd (saveLog Sample.readOnly))).
Proof.
  destruct (C7_failed_flush_keeps_memory Sample.readOnly)
    as (w' & Hrun & _ & Hmem & Hrej & _).
  rewrite Hrun. split; [|exact Hmem].
  rewrite (Hrej 1%nat "EROFS"); [reflexivity | discriminate | reflexivity | | reflexivity].
  split; [lia | split; [intros k Hk; lia | reflexivity]].
Defined.

Lemma constructor_run (w : World) :
  exists w', constructor w = (Ok tt, w') /\
    logFile (this w') = "" /\ currentDocument (this w') = "" /\
    editLog (this w') = [] /\ errorLog (this w') = [] /\
    executionLog (this w') = [] /\ isSaving (this w') = false /\
    currentExecution (this w') = None.
Proof.
  unfold constructor, getLogFolderPath, generateSessionId, Date_now, getWorld,
    modifyThis, ensureFolder, fs_existsSync, fs_mkdirSync, bind, ret.
  destruct (workspaceFolders w) as [|folder rest]; simpl;
    case_bool_decide; simpl; eexists; (split; [reflexivity|]);
    repeat split.
Qed.

(** C10. The logger is constructed without a target. Every flush before a
    target is set returns at once and changes nothing, so the buffered
    records stay in memory. The first document change that sets a target
    flushes: when the write is not refused, it writes the full snapshot,
    with the logs exactly as they were buffered. *)
Theorem C10_flush_without_target_is_noop :
  (forall w, exists w',
     constructor w = (Ok tt, w') /\ logFile (this w') = "") /\
  (forall w, logFile (this w) = "" ->
     saveLog w = (Ok tt, w) /\ onSaveTimeout w = (Ok tt, w)) /\
  (forall w d,
     logFile (this w) = "" -> isSaving (this w) = false ->
     shouldIgnoreDocument (this w) d = false ->
     currentDocument (this w) <> fileName d ->
     (forall p, writeRejects w p = None) ->
     exists (w' : World) (mk : list Effect) (p : string),
       onDocumentChange d w = (Ok tt, w') /\
       sameLogs (this w) (this w') /\
       logFile (this w') = docTarget (this w) d /\
       (mk = [] \/ mk = [MkDir (docFolder (this w) d)]) /\
       trace w' = (trace w ++ mk ++ [WriteFile p (snapshot (this w'))])%list).
Proof.
  split; [|split].
  - intros w. destruct (constructor_run w) as (w' & Hrun & Hfile & _).
    exists w'. now split.
  - intros w Hfile. unfold onSaveTimeout.
    rewrite saveLog_skip; [now split|].
    unfold JS.truthy. now rewrite Hfile.
  - intros w d Hfile Hsaving Hig Hcur Hwr.
    destruct (onDocumentChange_switch d w Hig Hcur) as (mk & F & Hmk & Hrun).
    cbv zeta in Hrun.
    match type of Hrun with _ = saveLog ?w2 =>
      destruct (saveLog_flush w2) as (n & _ & Hflush) end.
    { apply docTarget_nonempty. }
    { exact Hsaving. }
    rewrite Hflush in Hrun. unfold flushEffect in Hrun.
    change (writeRejects (with_trace _ _)) with (writeRejects w) in Hrun.
    rewrite Hwr in Hrun.
    eexists _, mk, _. split; [exact Hrun|].
    split; [repeat split|]. split; [reflexivity|]. split; [exact Hmk|].
    simpl. rewrite <- app_assoc. reflexivity.
Qed.

Lemma C10_flush_without_target_witness :
  saveLog Sample.untargeted = (Ok tt, Sample.untargeted) /\
  exists (w' : World) (mk : list Effect) (p : string),
    onDocumentChange Sample.a_py Sample.untargeted = (Ok tt, w') /\
    sameLogs (this Sample.untargeted) (this w') /\
    logFile (this w') = docTarget (this Sample.untargeted) Sample.a_py /\
    (mk = [] \/ mk = [MkDir (docFolder (this Sample.untargeted) Sample.a_py)]) /\
    trace w' = (trace Sample.untargeted ++ mk ++ [WriteFile p (snapshot (this w'))])%list.
Proof.
  destruct C10_flush_without_target_is_noop as (_ & Hnoop & Hfirst).
  split.
  - apply (Hnoop Sample.untargeted). reflexivity.
  - apply (Hfirst Sample.untargeted Sample.a_py).
    + reflexivity.
    + reflexivity.
    + vm_compute. reflexivity.
    + discriminate.
    + intros p. reflexivity.
Defined.

(** ** The execution tracker *)

Lemma scheduledFlushes_app (t1 t2 : list Effect) :
  scheduledFlushes (t1 ++ t2)
  = (scheduledFlushes t1 + scheduledFlushes t2)%nat.
Proof. unfold scheduledFlushes. now rewrite filter_app, length_app. Qed.

(** [scheduleSave] returns and touches neither the logs nor the run. *)
Lemma scheduleSave_run (w : World) :
  exists w', scheduleSave w = (Ok tt, w') /\
    this w' = set_saveTimeout (Some (timerSeq w)) (this w) /\
    scheduledFlushes (trace w') = S (scheduledFlushes (trace w)).
Proof.
  unfold scheduleSave, getThis, clearTimeout, emit, setTimeout, modifyThis,
    bind, ret.
  destruct (saveTimeout (this w)); simpl; eexists; (split; [reflexivity|]);
    (split; [reflexivity|]); simpl trace;
    rewrite !scheduledFlushes_app; cbv [scheduledFlushes filter list_filter length isSetTimeout decide_rel]; simpl; lia.
Qed.

(** [logPythonError] returns and appends one record to the error log. *)
Lemma logPythonError_run (filePath errorText : string) (w : World) :
  exists w' ts code,
    logPythonError filePath errorText w = (Ok tt, w') /\
    this w' =
      set_errorLog (errorLog (this w) ++ [pythonError errorText ts code])
        (this w) /\
    trace w' = trace w /\ timerSeq w' = timerSeq w.
Proof.
  unfold logPythonError, pythonError, errorMessageOf, errorStackOf.
  pose proof (split_nonempty JS.LF errorText) as Hne.
  destruct (JS.split JS.LF errorText) as [|first [|second rest]]; [done| |].
  - rewrite bool_decide_eq_false_2 by (simpl; lia).
    unfold getCurrentTimestamp, Date_now, fs_existsSync, fs_readFileSync,
      modifyThis, bind, ret. simpl.
    destruct (fs w !! filePath) as [nd|] eqn:Hf; simpl; rewrite ?Hf; simpl;
      eexists _, _, _; (split; [reflexivity|]); repeat split.
  - rewrite bool_decide_eq_true_2 by (simpl; lia).
    unfold getCurrentTimestamp, Date_now, fs_existsSync, fs_readFileSync,
      modifyThis, bind, ret. simpl.
    destruct (fs w !! filePath) as [nd|] eqn:Hf; simpl; rewrite ?Hf; simpl;
      eexists _, _, _; (split; [reflexivity|]); repeat split.
Qed.

(** [finishExecution] on a run in flight returns; it appends the end
    record, derives the error record of a failed run, clears the run and
    schedules one flush. *)
Lemma finishExecution_run (exitCode : Z) (errorMessage : option string)
    (w : World) (cur : Execution.t) :
  currentExecution (this w) = Some cur ->
  exists (w' : World) (ts dur : Z) (errs : list ErrorLogEntry.t),
    finishExecution exitCode errorMessage w = (Ok tt, w') /\
    this w' =
      set_saveTimeout (Some (timerSeq w))
        (set_currentExecution None
           (set_errorLog (errorLog (this w) ++ errs)
              (set_executionLog
                 (executionLog (this w)
                  ++ [executionEnd cur exitCode errorMessage ts dur])
                 (this w)))) /\
    (if runFailed cur exitCode errorMessage
     then exists ts' code,
            errs = [pythonError (errorTextOf cur errorMessage) ts' code]
     else errs = []) /\
    scheduledFlushes (trace w') = S (scheduledFlushes (trace w)).
Proof.
  intros Hcur. unfold finishExecution. unfold bind at 1, getThis.
  rewrite Hcur. unfold bind at 1, Date_now.
  unfold bind at 1, getCurrentTimestamp, Date_now.
  unfold bind at 1, modifyThis. cbv zeta.
  fold (runFailed cur exitCode errorMessage).
  fold (errorTextOf cur errorMessage).
  fold (executionEnd cur exitCode errorMessage
          (clock (with_clockReads (S (clockReads w)) w)
             (clockReads (with_clockReads (S (clockReads w)) w)))
          (clock w (clockReads w) - Execution.startTime cur)).
  unfold bind at 1.
  destruct (runFailed cur exitCode errorMessage).
  - match goal with |- context [logPythonError ?f ?t ?w1] =>
      destruct (logPythonError_run f t w1)
        as (w2 & ts' & code & Hrun & Hthis & Htr & Htm) end.
    rewrite Hrun. unfold bind at 1, modifyThis.
    match goal with |- context [scheduleSave ?w3] =>
      destruct (scheduleSave_run w3) as (w4 & Hs & Hthis4 & Hcount) end.
    rewrite Hs. eexists w4, _, _, _. split; [reflexivity|].
    split; [|split; [eauto|]].
    + rewrite Hthis4. simpl. rewrite Hthis, Htm. simpl. reflexivity.
    + rewrite Hcount. simpl. now rewrite Htr.
  - unfold ret. unfold bind at 1, modifyThis.
    match goal with |- context [scheduleSave ?w3] =>
      destruct (scheduleSave_run w3) as (w4 & Hs & Hthis4 & Hcount) end.
    rewrite Hs. eexists w4, _, _, []. split; [reflexivity|].
    split; [|split; [reflexivity|]].
    + rewrite Hthis4. simpl. rewrite app_nil_r. reflexivity.
    + rewrite Hcount. reflexivity.
Qed.





(** C9. An exit signal with a null code, on a run whose standard error is
    empty, is recorded as a success: the end record has exit code 0 and no
    error text, and no error record is derived. *)
Theorem C9_null_exit_code_is_success (w : World) (cur : Execution.t) :
  currentExecution (this w) = Some cur ->
  Execution.error cur = "" ->
  exists (w' : World) (ts dur : Z),
    onProcessExit None w = (Ok tt, w') /\
    executionLog (this w')
    = (executionLog (this w)
       ++ [ {| ExecutionLogEntry.timestamp := ts;
               ExecutionLogEntry.event := "execution_end";
               ExecutionLogEntry.file := Execution.file cur;
               ExecutionLogEntry.language := "python";
               ExecutionLogEntry.output := Some (Execution.output cur);
               ExecutionLogEntry.error := None;
               ExecutionLogEntry.exitCode := Some 0;
               ExecutionLogEntry.duration := Some dur |} ])%list /\
    errorLog (this w') = errorLog (this w) /\
    currentExecution (this w') = None.
Proof.
  intros Hcur Herr. unfold onProcessExit.
  destruct (finishExecution_run 0 None w cur Hcur)
    as (w' & ts & dur & errs & Hrun & Hthis & Herrs & _).
  unfold runFailed in Herrs. rewrite Herr in Herrs. simpl in Herrs. subst errs.
  exists w', ts, dur. split; [exact Hrun|]. rewrite Hthis.
  unfold executionEnd. rewrite Herr. simpl. rewrite app_nil_r. repeat split.
Qed.

Lemma C9_null_exit_code_witness :
  exists (w' : World) (ts dur : Z),
    onProcessExit None (SampleRun.running SampleRun.quiet) = (Ok tt, w') /\
    executionLog (this w')
    = [ {| ExecutionLogEntry.timestamp := ts;
           ExecutionLogEntry.event := "execution_end";
           ExecutionLogEntry.file := "/ws/a.py";
           ExecutionLogEntry.language := "python";
           ExecutionLogEntry.output := Some "hello";
           ExecutionLogEntry.error := None;
           ExecutionLogEntry.exitCode := Some 0;
           ExecutionLogEntry.duration := Some dur |} ] /\
    errorLog (this w') = [] /\
    currentExecution (this w') = None.
Proof.
  apply (C9_null_exit_code_is_success (SampleRun.running SampleRun.quiet)
           SampleRun.quiet); reflexivity.
Defined.




(** ** The listener: pastes and keystrokes *)

Lemma onContentChange_paste (d : TextDocument) (c : ContentChange) :
  isPaste c -> onContentChange d c = ret tt.
Proof.
  intros (Hr & Hlen & Hnl & Hcr). unfold onContentChange. rewrite Hr.
  rewrite (bool_decide_eq_false_2 (0 < 0)%nat) by lia.
  rewrite andb_false_r.
  rewrite (bool_decide_eq_false_2 (String.length (c_text c) = 1%nat)) by lia.
  rewrite andb_false_l.
  rewrite (bool_decide_eq_false_2 (c_text c = ""))
    by (intros E; rewrite E in Hlen; simpl in Hlen; lia).
  rewrite andb_false_l.
  rewrite (bool_decide_eq_false_2 (c_text c = JS.nl)) by exact Hnl.
  rewrite (bool_decide_eq_false_2 (c_text c = JS.crnl)) by exact Hcr.
  reflexivity.
Qed.

Lemma forEach_paste (d : TextDocument) (l : list ContentChange) (w : World) :
  Forall isPaste l -> forEach l (onContentChange d) w = (Ok tt, w).
Proof.
  induction 1 as [|c l Hc _ IH]; [reflexivity|].
  simpl. rewrite (onContentChange_paste d c Hc). exact IH.
Qed.

(** C8. A change event whose changes all replace nothing and insert two
    code units or more, other than a line break, makes the listener return
    with the three logs as they were. *)
Theorem C8_paste_is_not_logged (w : World) (e : TextDocumentChangeEvent) :
  Forall isPaste (contentChanges e) ->
  exists w' : World,
    onDidChangeTextDocument e w = (Ok tt, w') /\
    sameLogs (this w) (this w').
Proof.
  intros Hpaste. unfold onDidChangeTextDocument, bind at 1, getThis.
  destruct (negb (bool_decide (languageId (document e) = "python"))
            || shouldIgnoreDocument (this w) (document e)).
  - exists w. split; [reflexivity | repeat split].
  - destruct (onDocumentChange_run (document e) w) as (L & F & t & Hdoc & HL & _).
    unfold bind. rewrite Hdoc. rewrite forEach_paste by exact Hpaste.
    eexists. split; [reflexivity|].
    destruct HL as [-> | ->]; repeat split.
Qed.

Lemma C8_paste_is_not_logged_witness :
  exists w' : World,
    onDidChangeTextDocument
      (mkChangeEvent Sample.a_py
         [mkContentChange (mkRange (mkPosition 0 0) (mkPosition 0 0)) 0
            "print('hello')"])
      Sample.untargeted = (Ok tt, w') /\
    sameLogs (this Sample.untargeted) (this w').
Proof.
  apply C8_paste_is_not_logged.
  repeat constructor; simpl; try lia; discriminate.
Defined.











(** * The logger between calls *)

(** ** Paths under the log folder *)

Lemma startsWith_app (p s : string) : JS.startsWith p (p +:+ s) = true.
Proof.
  induction p as [|a p IH]; [reflexivity|].
  change (String a p +:+ s) with (String a (p +:+ s)). simpl.
  now rewrite bool_decide_eq_true_2, IH.
Qed.

Lemma startsWith_app_l (p a b : string) :
  JS.startsWith p a = true -> JS.startsWith p (a +:+ b) = true.
Proof.
  revert a. induction p as [|x p IH]; intros a H; [reflexivity|].
  destruct a as [|y a]; [discriminate|].
  change (String y a +:+ b) with (String y (a +:+ b)). simpl in *.
  apply andb_true_iff in H as [-> H]. now rewrite (IH a H).
Qed.

Lemma includes_app_l (sub a b : string) :
  JS.includes sub a = true -> JS.includes sub (a +:+ b) = true.
Proof.
  induction a as [|x a IH]; intros H.
  - destruct sub; [destruct b; reflexivity | discriminate].
  - rewrite includes_cons in H.
    change (String x a +:+ b) with (String x (a +:+ b)).
    rewrite includes_cons. apply orb_true_iff in H as [H|H].
    + change (String x (a +:+ b)) with (String x a +:+ b).
      now rewrite (startsWith_app_l _ _ _ H).
    + rewrite (IH H). apply orb_true_r.
Qed.

Lemma includes_app_r (sub a b : string) :
  JS.includes sub b = true -> JS.includes sub (a +:+ b) = true.
Proof.
  intros H. induction a as [|x a IH]; [exact H|].
  change (String x a +:+ b) with (String x (a +:+ b)).
  rewrite includes_cons, IH. apply orb_true_r.
Qed.

Lemma includes_self (sub b : string) : JS.includes sub (sub +:+ b) = true.
Proof.
  destruct (sub +:+ b) eqn:E.
  - destruct sub; [reflexivity | discriminate].
  - rewrite includes_cons, <- E, startsWith_app. reflexivity.
Qed.

Lemma join_logs (dir : string) :
  JS.includes ".logs" (path.join dir ".logs") = true.
Proof.
  unfold path.join. destruct (_ || _); [reflexivity|].
  apply includes_app_r. reflexivity.
Qed.


(** ** Composing computations that respect a relation *)

Section Respects.
Context (R : World -> World -> Prop) `{!PreOrder R}.

Lemma respects_ret {A} (a : A) : respects R (ret a).
Proof. intros w. reflexivity. Qed.

Lemma respects_throw {A} (e : string) : respects R (throw (A := A) e).
Proof. intros w. reflexivity. Qed.

Lemma respects_outOfFuel {A} : respects R (outOfFuel (A := A)).
Proof. intros w. reflexivity. Qed.

Lemma respects_bind {A B} (m : M A) (k : A -> M B) :
  respects R m -> (forall a, respects R (k a)) -> respects R (bind m k).
Proof.
  intros Hm Hk w. unfold bind. specialize (Hm w).
  destruct (m w) as [[a|e|] w1]; simpl in *; [|exact Hm..].
  etransitivity; [exact Hm | apply Hk].
Qed.

Lemma respects_try_catch {A} (body : M A) (handler : string -> M A) :
  respects R body -> (forall e, respects R (handler e)) ->
  respects R (try_catch body handler).
Proof.
  intros Hb Hh w. unfold try_catch. specialize (Hb w).
  destruct (body w) as [[a|e|] w1]; simpl in *; [exact Hb | | exact Hb].
  etransitivity; [exact Hb | apply Hh].
Qed.

Lemma respects_try_finally {A} (body : M A) (fin : M unit) :
  respects R body -> respects R fin -> respects R (try_finally body fin).
Proof.
  intros Hb Hf w. unfold try_finally. specialize (Hb w).
  destruct (body w) as [[a|e|] w1]; simpl in *; [| | exact Hb];
    specialize (Hf w1); destruct (fin w1) as [[[]|e'|] w2]; simpl in *;
    (etransitivity; [exact Hb | exact Hf]).
Qed.

Lemma respects_forEach {A} (l : list A) (f : A -> M unit) :
  (forall x, respects R (f x)) -> respects R (forEach l f).
Proof.
  intros Hf. induction l as [|x l IH]; simpl.
  - apply respects_ret.
  - apply respects_bind; [apply Hf | intros _; exact IH].
Qed.

Lemma respects_getThis : respects R getThis.
Proof. intros w. reflexivity. Qed.

Lemma respects_getWorld : respects R getWorld.
Proof. intros w. reflexivity. Qed.

End Respects.

(** ** The step relation *)

Lemma growsL_refl (l : Logger) : growsL l l.
Proof. repeat split; reflexivity. Qed.

Lemma growsL_trans (a b c : Logger) : growsL a b -> growsL b c -> growsL a c.
Proof.
  intros (H1 & H2 & H3 & H4 & H5) (K1 & K2 & K3 & K4 & K5).
  repeat split; try (etransitivity; eassumption); congruence.
Qed.

Lemma snapshotOf_grows (d : LogData.t) (l l' : Logger) :
  snapshotOf d l -> growsL l l' -> snapshotOf d l'.
Proof.
  intros (H1 & H2 & H3 & H4) (K1 & K2 & K3 & K4 & K5).
  repeat split; try (etransitivity; eassumption); congruence.
Qed.

Lemma snapshotOf_snapshot (l : Logger) : snapshotOf (snapshot l) l.
Proof. repeat split; reflexivity. Qed.

#[local] Instance step_preorder : PreOrder step.
Proof.
  split.
  - intros w. split; [|tauto]. split; [apply growsL_refl | reflexivity].
  - intros a b c ((G1 & T1) & S1) ((G2 & T2) & S2). split; [|tauto].
    split; [eapply growsL_trans; eassumption | etransitivity; eassumption].
Qed.

#[local] Arguments armedTimers : simpl never.

Lemma armedTimers_snoc (t : list Effect) (e : Effect) :
  armedTimers (t ++ [e]) = timerStep (armedTimers t) e.
Proof. unfold armedTimers. now rewrite fold_left_app. Qed.

(** A change of the logger and an addition to the trace that neither
    touch the flag, the student, the timer handle nor the timers, and
    that write nothing but snapshots. *)
Lemma step_intro (w w' : World) (t : list Effect) :
  growsL (this w) (this w') ->
  trace w' = (trace w ++ t)%list ->
  isSaving (this w') = isSaving (this w) ->
  (studentId (this w) <> "" -> studentId (this w') <> "") ->
  saveTimeout (this w') = saveTimeout (this w) ->
  armedTimers (trace w ++ t) = armedTimers (trace w) ->
  (forall p d, WriteFile p d ∈ t -> snapshotOf d (this w')) ->
  step w w'.
Proof.
  intros Hg Ht Hs Hid Hto Harm Hwr. split.
  - split; [exact Hg|]. rewrite Ht. now apply prefix_app_r.
  - intros (S1 & S2 & S3 & S4 & S5).
    split; [|split; [|split; [|split]]].
    + congruence.
    + auto.
    + rewrite Ht, Harm, Hto. exact S3.
    + intros p d Hin. rewrite Ht in Hin.
      apply elem_of_app in Hin as [Hin|Hin]; [|now apply (Hwr p)].
      eapply snapshotOf_grows; [now apply (S4 p) | exact Hg].
    + destruct Hg as (_ & _ & _ & _ & ->). exact S5.
Qed.

(** Nothing of the logger or the trace changed. *)
Lemma step_same (w w' : World) :
  this w' = this w -> trace w' = trace w -> step w w'.
Proof.
  intros Hthis Htrace. apply (step_intro w w' []); rewrite ?Hthis, ?app_nil_r;
    auto using growsL_refl.
  intros p d Hin. inversion Hin.
Qed.

Lemma step_Date_now : respects step Date_now.
Proof. intros w. now apply step_same. Qed.

Lemma step_fs_existsSync (p : string) : respects step (fs_existsSync p).
Proof. intros w. now apply step_same. Qed.

Lemma step_fs_statSync (p : string) : respects step (fs_statSync p).
Proof.
  intros w. unfold fs_statSync. destruct (fs w !! p); now apply step_same.
Qed.

Lemma step_fs_readFileSync (p : string) : respects step (fs_readFileSync p).
Proof.
  intros w. unfold fs_readFileSync. destruct (fs w !! p); now apply step_same.
Qed.

Lemma step_lineAt (d : TextDocument) (n : nat) : respects step (lineAt d n).
Proof.
  intros w. unfold lineAt. destruct (doc_lines d !! n); now apply step_same.
Qed.

Lemma step_fs_mkdirSync (p : string) : respects step (fs_mkdirSync p).
Proof.
  intros w. apply (step_intro _ _ [MkDir p]); try reflexivity;
    auto using growsL_refl.
  - now rewrite armedTimers_snoc.
  - intros q d Hin. apply list_elem_of_singleton in Hin. discriminate.
Qed.

Lemma step_console_error (msg detail : string) :
  respects step (console_error msg detail).
Proof.
  intros w. apply (step_intro _ _ [ConsoleError msg detail]); try reflexivity;
    auto using growsL_refl.
  - now rewrite armedTimers_snoc.
  - intros q d Hin. apply list_elem_of_singleton in Hin. discriminate.
Qed.

Lemma step_process_kill (p : ChildProcess) : respects step (process_kill p).
Proof.
  intros w. apply (step_intro _ _ [Kill p]); try reflexivity;
    auto using growsL_refl.
  - now rewrite armedTimers_snoc.
  - intros q d Hin. apply list_elem_of_singleton in Hin. discriminate.
Qed.

(** A field update that keeps the flag, the timer handle and the session,
    and only extends the logs. *)
Lemma step_modifyThis (f : Logger -> Logger) :
  (forall l, growsL l (f l)) ->
  (forall l, isSaving (f l) = isSaving l) ->
  (forall l, studentId l <> "" -> studentId (f l) <> "") ->
  (forall l, saveTimeout (f l) = saveTimeout l) ->
  respects step (modifyThis f).
Proof.
  intros Hg Hs Hid Hto w. apply (step_intro _ _ []); simpl;
    rewrite ?app_nil_r; auto.
  intros p d Hin. inversion Hin.
Qed.

Lemma step_saveLog : respects step saveLog.
Proof.
  intros w. destruct (saveLog_run w) as (t & -> & Hcase). simpl snd.
  apply (step_intro _ _ t); try reflexivity; auto using growsL_refl.
  - destruct Hcase as [-> | (n & _ & ->)]; [now rewrite app_nil_r|].
    rewrite armedTimers_snoc. unfold flushEffect.
    destruct (writeRejects w _); reflexivity.
  - intros p d Hin. destruct Hcase as [-> | (n & _ & ->)]; [inversion Hin|].
    apply list_elem_of_singleton in Hin. unfold flushEffect in Hin.
    destruct (writeRejects w _); [discriminate|].
    injection Hin as _ ->. apply snapshotOf_snapshot.
Qed.

Lemma step_scheduleSave : respects step scheduleSave.
Proof.
  intros w. unfold scheduleSave, getThis, clearTimeout, emit, setTimeout,
    modifyThis, bind, ret.
  destruct (saveTimeout (this w)) as [h|] eqn:Hto; simpl; split.
  - split; [repeat split; reflexivity|]. simpl.
    rewrite <- app_assoc. now apply prefix_app_r.
  - intros (S1 & S2 & S3 & S4 & S5). unfold steady. simpl.
    split; [exact S1|]. split; [exact S2|]. split; [|split].
    + rewrite !armedTimers_snoc, S3, Hto. unfold timerStep.
      change (option_list (Some h)) with [h].
      rewrite filter_cons, decide_False by (intros H; now apply H).
      reflexivity.
    + intros p d Hin. rewrite !elem_of_app in Hin.
      destruct Hin as [[Hin|Hin]|Hin];
        [now apply (S4 p) | apply list_elem_of_singleton in Hin; discriminate
        | apply list_elem_of_singleton in Hin; discriminate].
    + exact S5.
  - split; [repeat split; reflexivity|]. simpl. now apply prefix_app_r.
  - intros (S1 & S2 & S3 & S4 & S5). unfold steady. simpl.
    split; [exact S1|]. split; [exact S2|]. split; [|split].
    + rewrite armedTimers_snoc, S3, Hto. reflexivity.
    + intros p d Hin. rewrite elem_of_app in Hin.
      destruct Hin as [Hin|Hin];
        [now apply (S4 p) | apply list_elem_of_singleton in Hin; discriminate].
    + exact S5.
Qed.

(** ** Every entry point is a step *)

Lemma configuredStudentId_nonempty (w : World) : configuredStudentId w <> "".
Proof.
  unfold configuredStudentId, JS.or_str, JS.truthy.
  destruct (cfg_studentId w) as [s|]; [|discriminate].
  case_bool_decide; [discriminate | assumption].
Qed.

Ltac logger_update :=
  apply step_modifyThis;
  [ intros ?l; repeat split; simpl; try reflexivity;
    try (apply prefix_app_r; reflexivity)
  | intros ?l; reflexivity
  | intros ?l; simpl; auto using configuredStudentId_nonempty
  | intros ?l; reflexivity ].

Ltac steps :=
  repeat lazymatch goal with
  | |- forall _, _ => intro
  | |- respects step (bind _ _) => apply (respects_bind step)
  | |- respects step (ret _) => apply (respects_ret step)
  | |- respects step (throw _) => apply (respects_throw step)
  | |- respects step getThis => apply (respects_getThis step)
  | |- respects step getWorld => apply (respects_getWorld step)
  | |- respects step Date_now => apply step_Date_now
  | |- respects step getCurrentTimestamp => apply step_Date_now
  | |- respects step (fs_existsSync _) => apply step_fs_existsSync
  | |- respects step (fs_readFileSync _) => apply step_fs_readFileSync
  | |- respects step (fs_mkdirSync _) => apply step_fs_mkdirSync
  | |- respects step (lineAt _ _) => apply step_lineAt
  | |- respects step (console_error _ _) => apply step_console_error
  | |- respects step (process_kill _) => apply step_process_kill
  | |- respects step (modifyThis _) => logger_update
  | |- respects step saveLog => apply step_saveLog
  | |- respects step scheduleSave => apply step_scheduleSave
  | |- respects step (forEach _ _) => apply (respects_forEach step)
  | |- respects step (if ?b then _ else _) => destruct b
  | |- respects step (match ?x with _ => _ end) => destruct x
  end.

Lemma step_ensureFolder (p : string) : respects step (ensureFolder p).
Proof. unfold ensureFolder. steps. Qed.

Lemma docFolder_logs (l : Logger) (d : TextDocument) :
  JS.includes ".logs" (logFolder l) = true ->
  JS.includes ".logs" (docFolder l d) = true.
Proof.
  intros H. unfold docFolder.
  destruct (doc_workspaceFolder d); [apply join_logs | exact H].
Qed.

Lemma step_onDocumentChange (d : TextDocument) :
  respects step (onDocumentChange d).
Proof.
  unfold onDocumentChange. cbv zeta. steps; apply step_ensureFolder.
Qed.

Lemma step_logEdit (edit : ContentChange) (d : TextDocument) :
  respects step (logEdit edit d).
Proof. unfold logEdit. cbv zeta. steps. Qed.

Lemma step_logKeyInput (key : string) (d : TextDocument) :
  respects step (logKeyInput key d).
Proof. unfold logKeyInput. cbv zeta. steps. Qed.

Lemma step_logPythonError (filePath errorMessage : string) :
  respects step (logPythonError filePath errorMessage).
Proof. unfold logPythonError. cbv zeta. steps. Qed.

Lemma step_finishExecution (exitCode : Z) (errorMessage : option string) :
  respects step (finishExecution exitCode errorMessage).
Proof.
  unfold finishExecution. cbv zeta. steps; apply step_logPythonError.
Qed.

Lemma step_startPythonExecution (filePath : string) :
  respects step (startPythonExecution filePath).
Proof.
  unfold startPythonExecution. cbv zeta.
  steps; first [apply step_finishExecution | apply step_onDocumentChange].
Qed.

Lemma step_onContentChange (d : TextDocument) (c : ContentChange) :
  respects step (onContentChange d c).
Proof.
  unfold onContentChange.
  steps; first [apply step_logEdit | apply step_logKeyInput].
Qed.

Lemma step_onDidChangeTextDocument (e : TextDocumentChangeEvent) :
  respects step (onDidChangeTextDocument e).
Proof.
  unfold onDidChangeTextDocument.
  steps; first [apply step_onDocumentChange | apply step_onContentChange].
Qed.

Lemma step_perform (c : Call) : respects step (perform c).
Proof.
  destruct c; simpl.
  - apply step_onDidChangeTextDocument.
  - apply step_onDocumentChange.
  - apply step_logEdit.
  - apply step_logKeyInput.
  - unfold loadStudentId. steps.
  - apply step_startPythonExecution.
  - unfold setPythonProcess. steps.
  - unfold onStdoutData. steps.
  - unfold onStderrData. steps.
  - unfold onProcessExit. apply step_finishExecution.
  - unfold onProcessError. steps. apply step_finishExecution.
  - apply step_saveLog.
  - unfold writeFileCallback. steps.
Qed.

Lemma reaches_step (w w' : World) : reaches w w' -> step w w'.
Proof.
  induction 1 as [w | w w1 c _ IH | w w1 w2 _ IH (Hthis & Htrace & _)].
  - reflexivity.
  - etransitivity; [exact IH | apply step_perform].
  - etransitivity; [exact IH | now apply step_same].
Qed.

Lemma constructor_steady (w0 : World) :
  trace w0 = [] -> steady (snd (constructor w0)).
Proof.
  intros Ht.
  unfold constructor, getLogFolderPath, generateSessionId, Date_now, getWorld,
    modifyThis, ensureFolder, fs_existsSync, fs_mkdirSync, bind, ret.
  destruct (workspaceFolders w0) as [|folder rest]; simpl;
    case_bool_decide; simpl; unfold steady; simpl; rewrite ?Ht;
    (split; [reflexivity|]); (split; [apply configuredStudentId_nonempty|]);
    (split; [reflexivity|]);
    (split; [|apply join_logs]);
    intros p d Hin;
    try (apply list_elem_of_singleton in Hin; discriminate); inversion Hin.
Qed.

Lemma reachable_steady (w : World) : reachable w -> steady w.
Proof.
  intros (w0 & Ht & Hrun). apply (reaches_step _ _ Hrun).
  now apply constructor_steady.
Qed.

(** ** What holds in every reachable world *)

Lemma sample_reachable : reachable (snd (constructor Sample.atLimit)).
Proof. exists Sample.atLimit. split; [reflexivity | apply reaches_refl]. Qed.

(** X1. Whatever the host calls and however the calls end, the three logs
    are only extended at their end, the session id and the log folder stay,
    and the trace of effects is only extended. *)
Theorem X1_logs_only_grow (w w' : World) :
  reaches w w' ->
  editLog (this w) `prefix_of` editLog (this w') /\
  errorLog (this w) `prefix_of` errorLog (this w') /\
  executionLog (this w) `prefix_of` executionLog (this w') /\
  sessionId (this w') = sessionId (this w) /\
  logFolder (this w') = logFolder (this w) /\
  trace w `prefix_of` trace w'.
Proof.
  intros Hrun. destruct (reaches_step w w' Hrun) as (((H1 & H2 & H3 & H4 & H5) & Ht) & _).
  tauto.
Qed.

Lemma X1_logs_only_grow_witness :
  let w := SampleRun.running SampleRun.failing in
  let w' := snd (perform (StartPythonExecution "/ws/b.py")
                   (snd (perform (StderrData "boom") w))) in
  editLog (this w) `prefix_of` editLog (this w') /\
  errorLog (this w) `prefix_of` errorLog (this w') /\
  executionLog (this w) `prefix_of` executionLog (this w') /\
  sessionId (this w') = sessionId (this w) /\
  logFolder (this w') = logFolder (this w) /\
  trace w `prefix_of` trace w'.
Proof.
  apply X1_logs_only_grow.
  apply reaches_call, reaches_call, reaches_refl.
Defined.

(** X2. In every reachable world the saving flag is clear, so the guard on
    the flag never stops a flush there: once a target is set, a flush
    always ends in a write request or in a diagnostic. *)
Theorem X2_reachable_flush_is_performed (w : World) :
  reachable w ->
  isSaving (this w) = false /\
  (logFile (this w) <> "" ->
   exists n, firstFree w n /\
     saveLog w = (Ok tt, with_trace (trace w ++ [flushEffect w n]) w)).
Proof.
  intros Hr. destruct (reachable_steady w Hr) as (Hs & _).
  split; [exact Hs|]. intros Hfile. now apply saveLog_flush.
Qed.

Lemma X2_reachable_flush_witness :
  let w := snd (perform (OnDocumentChange Sample.a_py)
                  (snd (constructor Sample.atLimit))) in
  isSaving (this w) = false /\
  (logFile (this w) <> "" ->
   exists n, firstFree w n /\
     saveLog w = (Ok tt, with_trace (trace w ++ [flushEffect w n]) w)).
Proof.
  apply X2_reachable_flush_is_performed.
  exists Sample.atLimit. split; [reflexivity|].
  apply reaches_call, reaches_refl.
Defined.

(** X3. In every reachable world at most one debounce timer is armed and
    not cleared, and it is the one whose handle the logger holds: arming a
    new timer always clears the previous one first. *)
Theorem X3_one_timer_armed (w : World) :
  reachable w ->
  armedTimers (trace w) = option_list (saveTimeout (this w)) /\
  (length (armedTimers (trace w)) <= 1)%nat.
Proof.
  intros Hr. destruct (reachable_steady w Hr) as (_ & _ & Ht & _).
  split; [exact Ht|]. rewrite Ht. destruct (saveTimeout (this w)); simpl; lia.
Qed.

Lemma X3_one_timer_armed_witness :
  let w := snd (perform (ProcessExit None)
             (snd (perform (StartPythonExecution "/ws/a.py")
                (snd (constructor Sample.atLimit))))) in
  armedTimers (trace w) = option_list (saveTimeout (this w)) /\
  (length (armedTimers (trace w)) <= 1)%nat.
Proof.
  apply X3_one_timer_armed.
  exists Sample.atLimit. split; [reflexivity|].
  apply reaches_call, reaches_call, reaches_refl.
Defined.

(** X4. In every reachable world, each snapshot the logger has asked to
    write is an earlier state of the present logs: its three logs are
    prefixes of the logs in memory and it bears the same session id. *)
Theorem X4_written_snapshots_are_prefixes (w : World) (p : string)
    (d : LogData.t) :
  reachable w ->
  WriteFile p d ∈ trace w ->
  LogData.editLog d `prefix_of` editLog (this w) /\
  LogData.errorLog d `prefix_of` errorLog (this w) /\
  LogData.executionLog d `prefix_of` executionLog (this w) /\
  LogData.sessionId d = sessionId (this w).
Proof.
  intros Hr Hin. destruct (reachable_steady w Hr) as (_ & _ & _ & Hsnap & _).
  exact (Hsnap p d Hin).
Qed.

Lemma X4_written_snapshots_witness :
  let w := snd (perform (OnDocumentChange Sample.a_py)
                  (snd (constructor Sample.atLimit))) in
  exists (p : string) (d : LogData.t),
    WriteFile p d ∈ trace w /\
    LogData.editLog d `prefix_of` editLog (this w) /\
    LogData.errorLog d `prefix_of` errorLog (this w) /\
    LogData.executionLog d `prefix_of` executionLog (this w) /\
    LogData.sessionId d = sessionId (this w).
Proof.
  intros w.
  assert (Hin : exists (p : string) (d : LogData.t), WriteFile p d ∈ trace w).
  { vm_compute. eexists _, _. apply list_elem_of_further, list_elem_of_here. }
  destruct Hin as (p & d & Hin). exists p, d. split; [exact Hin|].
  apply (X4_written_snapshots_are_prefixes w p d); [|exact Hin].
  exists Sample.atLimit. split; [reflexivity|].
  apply reaches_call, reaches_refl.
Defined.

(** X5. The student id is never empty in a reachable world, and reloading
    it takes the configured value, or "anonymous" when the configuration
    has none or an empty one. *)
Theorem X5_student_id_defaults (w : World) :
  (reachable w -> studentId (this w) <> "") /\
  (exists w', loadStudentId w = (Ok tt, w') /\
     studentId (this w')
     = match cfg_studentId w with
       | Some s => if bool_decide (s = "") then "anonymous" else s
       | None => "anonymous"
       end /\
     sameLogs (this w) (this w') /\ logFile (this w') = logFile (this w)).
Proof.
  split.
  - intros Hr. now destruct (reachable_steady w Hr) as (_ & Hid & _).
  - eexists. split; [reflexivity|]. simpl.
    split; [|split; [repeat split | reflexivity]].
    unfold configuredStudentId, JS.or_str, JS.truthy.
    destruct (cfg_studentId w) as [s|]; [|reflexivity].
    now case_bool_decide.
Qed.

Lemma X5_student_id_defaults_witness :
  studentId (this (snd (constructor Sample.atLimit))) <> "".
Proof.
  apply (X5_student_id_defaults (snd (constructor Sample.atLimit))).
  exact sample_reachable.
Defined.

(** ** Flushing twice, switching twice *)

(** X6. Two flushes in a row, with nothing appended and no change of the
    files in between, do the same thing twice: the second one targets the
    same part with the same snapshot (or is skipped like the first). *)
Theorem X6_flush_twice_same_effect (w : World) :
  exists t : list Effect,
    saveLog w = (Ok tt, with_trace (trace w ++ t) w) /\
    (saveLog ;; saveLog) w = (Ok tt, with_trace (trace w ++ t ++ t) w).
Proof.
  destruct (negb (JS.truthy (logFile (this w))) || isSaving (this w)) eqn:G.
  - exists []. rewrite !app_nil_r.
    assert (Hw : with_trace (trace w) w = w) by now destruct w.
    rewrite Hw. unfold bind. rewrite !saveLog_skip by exact G. now split.
  - apply orb_false_iff in G as [G1 G2].
    apply negb_false_iff in G1. unfold JS.truthy in G1.
    apply negb_true_iff, bool_decide_eq_false in G1.
    destruct (saveLog_flush w G1 G2) as (n & Hn & Hrun).
    exists [flushEffect w n]. split; [exact Hrun|].
    unfold bind. rewrite Hrun.
    destruct (saveLog_flush (with_trace (trace w ++ [flushEffect w n]) w) G1 G2)
      as (m & Hm & Hrun2).
    rewrite Hrun2. rewrite (firstFree_unique w m n Hm Hn).
    simpl. rewrite <- app_assoc. reflexivity.
Qed.



(** ** Runs: chunks, superseding, late signals *)

Lemma string_app_assoc (a b c : string) : (a +:+ b) +:+ c = a +:+ (b +:+ c).
Proof.
  induction a as [|x a IH]; [reflexivity|].
  change (String x ((a +:+ b) +:+ c) = String x (a +:+ b +:+ c)).
  now rewrite IH.
Qed.

Lemma string_app_nil_r (a : string) : a +:+ "" = a.
Proof.
  induction a as [|x a IH]; [reflexivity|].
  change (String x (a +:+ "") = String x a). now rewrite IH.
Qed.

Lemma fed_nil (cur : Execution.t) : fed cur [] = cur.
Proof.
  unfold fed, joinAll. simpl. rewrite !string_app_nil_r. now destruct cur.
Qed.

Lemma fed_stdout (cur : Execution.t) (data : string) (cs : list Call) :
  fed (Execution.set_output (Execution.output cur +:+ data) cur) cs
  = fed cur (StdoutData data :: cs).
Proof.
  unfold fed, joinAll. simpl. rewrite string_app_assoc. reflexivity.
Qed.

Lemma fed_stderr (cur : Execution.t) (data : string) (cs : list Call) :
  fed (Execution.set_error (Execution.error cur +:+ data) cur) cs
  = fed cur (StderrData data :: cs).
Proof.
  unfold fed, joinAll. simpl. rewrite string_app_assoc. reflexivity.
Qed.

(** Data listeners only change the accumulators of the run. *)
Lemma feed_run (cs : list Call) : forall (w : World) (cur : Execution.t),
  currentExecution (this w) = Some cur ->
  Forall isData cs ->
  forEach cs perform w
  = (Ok tt, with_this (set_currentExecution (Some (fed cur cs)) (this w)) w).
Proof.
  induction cs as [|c cs IH]; intros w cur Hcur Hdata.
  - simpl. unfold ret. rewrite fed_nil, <- Hcur. now destruct w as [[] ?].
  - inversion Hdata as [|? ? Hc Hcs]; subst.
    destruct c; try contradiction; simpl perform; simpl forEach.
    + unfold bind at 1, onStdoutData, bind at 1, getThis. rewrite Hcur.
      unfold modifyThis. erewrite IH; [|reflexivity|exact Hcs].
      rewrite fed_stdout. reflexivity.
    + unfold bind at 1, onStderrData, bind at 1, getThis. rewrite Hcur.
      unfold modifyThis. erewrite IH; [|reflexivity|exact Hcs].
      rewrite fed_stderr. reflexivity.
Qed.

(** X8. The chunks the process writes are kept whole and in order: after
    any sequence of data events, an exit signal records an end record
    whose output is the output so far followed by every standard-output
    chunk in arrival order, and likewise for the standard error. *)
Theorem X8_chunks_accumulate_in_order (w : World) (cur : Execution.t)
    (cs : list Call) (code : option Z) :
  currentExecution (this w) = Some cur ->
  Forall isData cs ->
  exists (w' : World) (ts dur : Z),
    (forEach cs perform ;; onProcessExit code) w = (Ok tt, w') /\
    executionLog (this w')
    = (executionLog (this w)
       ++ [ {| ExecutionLogEntry.timestamp := ts;
               ExecutionLogEntry.event := "execution_end";
               ExecutionLogEntry.file := Execution.file cur;
               ExecutionLogEntry.language := "python";
               ExecutionLogEntry.output :=
                 Some (Execution.output cur +:+ joinAll (stdoutOf <$> cs));
               ExecutionLogEntry.error :=
                 JS.or_undef
                   (Execution.error cur +:+ joinAll (stderrOf <$> cs)) None;
               ExecutionLogEntry.exitCode := Some (exitCodeOf code);
               ExecutionLogEntry.duration := Some dur |} ])%list /\
    currentExecution (this w') = None.
Proof.
  intros Hcur Hdata. unfold bind. rewrite (feed_run cs w cur Hcur Hdata).
  unfold onProcessExit. fold (exitCodeOf code).
  match goal with |- context [finishExecution ?c ?m ?w1] =>
    destruct (finishExecution_run c m w1 (fed cur cs) eq_refl)
      as (w' & ts & dur & errs & Hrun & Hthis & _) end.
  rewrite Hrun. exists w', ts, dur. split; [reflexivity|].
  rewrite Hthis. split; reflexivity.
Qed.

Lemma X8_chunks_accumulate_witness :
  exists (w' : World) (ts dur : Z),
    (forEach [StdoutData "a"; StderrData "x"; StdoutData "b"] perform ;;
     onProcessExit (Some 2)) (SampleRun.running SampleRun.quiet) = (Ok tt, w') /\
    executionLog (this w')
    = [ {| ExecutionLogEntry.timestamp := ts;
           ExecutionLogEntry.event := "execution_end";
           ExecutionLogEntry.file := "/ws/a.py";
           ExecutionLogEntry.language := "python";
           ExecutionLogEntry.output := Some "helloab";
           ExecutionLogEntry.error := Some "x";
           ExecutionLogEntry.exitCode := Some 2;
           ExecutionLogEntry.duration := Some dur |} ] /\
    currentExecution (this w') = None.
Proof.
  apply (X8_chunks_accumulate_in_order (SampleRun.running SampleRun.quiet)
           SampleRun.quiet [StdoutData "a"; StderrData "x"; StdoutData "b"]
           (Some 2)); [reflexivity|].
  repeat constructor.
Defined.


(** Starting a run over another: the old process is sent the kill signal,
    the old run is finished, and the start goes on as from idle. *)
Lemma start_supersede (filePath : string) (w : World) (cur : Execution.t) :
  currentExecution (this w) = Some cur ->
  exists (w1 : World) (ts dur : Z) (errs : list ErrorLogEntry.t),
    finishExecution 1 (Some "Aborted by new execution") (killed cur w)
    = (Ok tt, w1) /\
    currentExecution (this w1) = None /\
    executionLog (this w1)
    = (executionLog (this w)
       ++ [executionEnd cur 1 (Some "Aborted by new execution") ts dur])%list /\
    startPythonExecution filePath w = startPythonExecution filePath w1.
Proof.
  intros Hcur.
  assert (Hcur0 : currentExecution (this (killed cur w)) = Some cur).
  { unfold killed. now destruct (Execution.process cur). }
  destruct (finishExecution_run 1 (Some "Aborted by new execution")
              (killed cur w) cur Hcur0)
    as (w1 & ts & dur & errs & Hrun & Hthis & _).
  assert (Hnone : currentExecution (this w1) = None) by now rewrite Hthis.
  exists w1, ts, dur, errs. split; [exact Hrun|]. split; [exact Hnone|].
  split.
  { rewrite Hthis. unfold killed. now destruct (Execution.process cur). }
  unfold startPythonExecution. unfold bind at 1, getThis. rewrite Hcur.
  unfold bind at 1.
  assert (Hkill : (match Execution.process cur with
                   | Some p => process_kill p
                   | None => ret tt
                   end ;; finishExecution 1 (Some "Aborted by new execution")) w
                  = (Ok tt, w1)).
  { rewrite <- Hrun. unfold killed.
    destruct (Execution.process cur); reflexivity. }
  rewrite Hkill.
  symmetry. unfold bind at 1, getThis. rewrite Hnone.
  unfold bind at 1, ret. reflexivity.
Qed.



(** X10. Starting a run over another whose process was bound sends that
    process the kill signal before anything else is done. *)
Theorem X10_superseded_process_is_killed (w : World) (cur : Execution.t)
    (p : ChildProcess) (filePath : string) :
  currentExecution (this w) = Some cur ->
  Execution.process cur = Some p ->
  exists t : list Effect,
    trace (snd (startPythonExecution filePath w))
    = (trace w ++ Kill p :: t)%list.
Proof.
  intros Hcur Hp.
  destruct (start_supersede filePath w cur Hcur)
    as (w1 & ts & dur & errs & Hfin & _ & _ & Heq).
  rewrite Heq.
  pose proof (step_finishExecution 1 (Some "Aborted by new execution")
                (killed cur w)) as ((_ & (t1 & Ht1)) & _).
  rewrite Hfin in Ht1. simpl in Ht1.
  pose proof (step_startPythonExecution filePath w1) as ((_ & (t2 & Ht2)) & _).
  rewrite Ht2, Ht1. unfold killed. rewrite Hp. simpl.
  exists (t1 ++ t2)%list. rewrite <- !app_assoc. reflexivity.
Qed.

Lemma X10_superseded_process_witness :
  exists t : list Effect,
    trace (snd (startPythonExecution "/ws/b.py"
                  (SampleRun.running SampleRun.quiet)))
    = (trace (SampleRun.running SampleRun.quiet) ++ Kill 7%nat :: t)%list.
Proof.
  apply (X10_superseded_process_is_killed (SampleRun.running SampleRun.quiet)
           SampleRun.quiet); reflexivity.
Defined.






(** ** What the listener records *)

Lemma logEdit_cases (edit : ContentChange) (d : TextDocument) (w : World) :
  (exists (e : string) (w' : World),
     logEdit edit d w = (Throw e, w') /\ this w' = this w) \/
  (exists (w' : World) (r : EditLogEntry.t),
     logEdit edit d w = (Ok tt, w') /\
     editLog (this w') = (editLog (this w) ++ [r])%list /\
     EditLogEntry.key r = None /\
     EditLogEntry.text r = Some (c_text edit) /\
     EditLogEntry.range r = Some (c_range edit) /\
     EditLogEntry.operation r
     = Some (if bool_decide (c_text edit = "") then "delete"
             else if bool_decide (0 < c_rangeLength edit)%nat
                     && negb (bool_decide (c_text edit = ""))
                  then "replace" else "insert")).
Proof.
  destruct (doc_lines d !! line (start (c_range edit))) as [l|] eqn:Hl.
  - right. unfold logEdit. unfold bind at 1, getCurrentTimestamp, Date_now.
    unfold bind at 1, lineAt. rewrite Hl.
    unfold ret at 1. cbv zeta. unfold bind at 1, modifyThis.
    match goal with |- context [scheduleSave ?w3] =>
      destruct (scheduleSave_run w3) as (w4 & Hs & Hthis4 & _) end.
    rewrite Hs. eexists w4, _. split; [reflexivity|]. rewrite Hthis4.
    split; [reflexivity|]. repeat split.
  - left. unfold logEdit. unfold bind at 1, getCurrentTimestamp, Date_now.
    unfold bind at 1, lineAt. rewrite Hl. unfold throw.
    eexists _, _. split; reflexivity.
Qed.

Lemma logKeyInput_cases (key : string) (d : TextDocument) (w : World) :
  (exists (res : result unit) (w' : World),
     logKeyInput key d w = (res, w') /\ this w' = this w) \/
  (exists (w' : World) (k : KeyLogEntry.t),
     logKeyInput key d w = (Ok tt, w') /\
     editLog (this w') = (editLog (this w) ++ [KeyLogEntry.asEdit k])%list /\
     KeyLogEntry.key k = key).
Proof.
  destruct (activeTextEditor w) as [pos|] eqn:Hpos.
  2: { left. unfold logKeyInput. unfold bind at 1, getWorld. rewrite Hpos.
       eexists _, _. split; reflexivity. }
  destruct (doc_lines d !! line pos) as [l|] eqn:Hl.
  2: { left. unfold logKeyInput. unfold bind at 1, getWorld. rewrite Hpos.
       unfold bind at 1, getCurrentTimestamp, Date_now.
       unfold bind at 1, lineAt. rewrite Hl. unfold throw.
       eexists _, _. split; reflexivity. }
  right. unfold logKeyInput. unfold bind at 1, getWorld. rewrite Hpos.
  unfold bind at 1, getCurrentTimestamp, Date_now.
  unfold bind at 1, lineAt. rewrite Hl.
  unfold ret at 1. cbv zeta. unfold bind at 1, modifyThis.
  unfold bind at 1, getThis.
  match goal with |- context [if ?b then scheduleSave else ret tt] =>
    destruct b end.
  - match goal with |- context [scheduleSave ?w3] =>
      destruct (scheduleSave_run w3) as (w4 & Hs & Hthis4 & _) end.
    rewrite Hs. eexists w4, _. split; [reflexivity|]. rewrite Hthis4.
    split; reflexivity.
  - eexists _, _. split; [reflexivity|]. split; reflexivity.
Qed.

(** One content change, whatever its outcome, leaves the logger as it was
    or adds one record of the four kinds. *)
Lemma onContentChange_cases (d : TextDocument) (c : ContentChange) (w : World) :
  (exists (res : result unit) (w' : World),
     onContentChange d c w = (res, w') /\ this w' = this w) \/
  (exists (w' : World) (r : EditLogEntry.t),
     onContentChange d c w = (Ok tt, w') /\
     editLog (this w') = (editLog (this w) ++ [r])%list /\
     recordedFor c r).
Proof.
  unfold onContentChange.
  destruct (bool_decide (1 <= String.length (c_text c))%nat
            && bool_decide (0 < c_rangeLength c)%nat) eqn:B1.
  { apply andb_true_iff in B1 as [Hlen Hrl].
    apply bool_decide_eq_true in Hlen. apply bool_decide_eq_true in Hrl.
    assert (Hne : c_text c <> "").
    { intros E. rewrite E in Hlen. simpl in Hlen. lia. }
    destruct (logEdit_cases c d w)
      as [(e & w' & H & Hthis) | (w' & r & H & Hlog & Hk & Ht & Hr & Hop)].
    - left. exists (Throw e), w'. now split.
    - right. exists w', r. split; [exact H|]. split; [exact Hlog|]. left.
      rewrite (bool_decide_eq_false_2 _ Hne) in Hop.
      rewrite (bool_decide_eq_true_2 _ Hrl) in Hop. simpl in Hop. tauto. }
  destruct (bool_decide (String.length (c_text c) = 1%nat)
            && bool_decide (c_rangeLength c = 0%nat)) eqn:B2.
  { apply andb_true_iff in B2 as [Hlen Hrl].
    apply bool_decide_eq_true in Hlen. apply bool_decide_eq_true in Hrl.
    destruct (logKeyInput_cases (c_text c) d w)
      as [H | (w' & k & H & Hlog & Hk)]; [now left | right].
    exists w', (KeyLogEntry.asEdit k). split; [exact H|]. split; [exact Hlog|].
    right. exists k. split; [reflexivity|]. left. tauto. }
  destruct (bool_decide (c_text c = "")
            && bool_decide (c_rangeLength c = 1%nat)) eqn:B3.
  { apply andb_true_iff in B3 as [Htext Hrl].
    apply bool_decide_eq_true in Htext. apply bool_decide_eq_true in Hrl.
    destruct (logKeyInput_cases "Delete" d w)
      as [H | (w' & k & H & Hlog & Hk)]; [now left | right].
    exists w', (KeyLogEntry.asEdit k). split; [exact H|]. split; [exact Hlog|].
    right. exists k. split; [reflexivity|]. right. left. tauto. }
  destruct (bool_decide (c_text c = JS.nl) || bool_decide (c_text c = JS.crnl))
    eqn:B4.
  2: { left. eexists _, _. split; reflexivity. }
  assert (Hrl : c_rangeLength c = 0%nat).
  { destruct (c_rangeLength c) as [|n] eqn:E; [reflexivity|].
    apply orb_true_iff in B4.
    rewrite (bool_decide_eq_true_2 (0 < S n)%nat) in B1 by lia.
    rewrite andb_true_r in B1. apply bool_decide_eq_false in B1.
    destruct B4 as [B4|B4]; apply bool_decide_eq_true in B4;
      rewrite B4 in B1; simpl in B1; lia. }
  assert (Hcr : c_text c = JS.crnl).
  { apply orb_true_iff in B4 as [B4|B4]; apply bool_decide_eq_true in B4;
      [|exact B4].
    rewrite B4, Hrl in B2. discriminate. }
  destruct (logKeyInput_cases "Enter" d w)
    as [H | (w' & k & H & Hlog & Hk)]; [now left | right].
  exists w', (KeyLogEntry.asEdit k). split; [exact H|]. split; [exact Hlog|].
  right. exists k. split; [reflexivity|]. right. right. tauto.
Qed.

(** X13. One content change adds at most one record to the edit log, and
    only of four kinds: an edit record labelled "replace" (a non-empty
    text over a non-empty range), a key record bearing the one character
    typed, "Delete" for one deleted character, or "Enter" for a carriage
    return and line feed. A lone line feed is recorded under its own
    character, and the labels "insert" and "delete" are never produced. *)
Theorem X13_what_a_change_records (d : TextDocument) (c : ContentChange)
    (w : World) :
  editLog (this (snd (onContentChange d c w))) = editLog (this w) \/
  exists r : EditLogEntry.t,
    editLog (this (snd (onContentChange d c w)))
    = (editLog (this w) ++ [r])%list /\
    recordedFor c r /\
    EditLogEntry.operation r <> Some "insert" /\
    EditLogEntry.operation r <> Some "delete" /\
    (EditLogEntry.key r = Some "Enter" -> c_text c = JS.crnl) /\
    (c_text c = JS.nl -> c_rangeLength c = 0%nat ->
     EditLogEntry.key r = Some JS.nl).
Proof.
  destruct (onContentChange_cases d c w)
    as [(res & w' & -> & H) | (w' & r & -> & Hlog & Hrec)];
    [left; simpl; now rewrite H | right].
  exists r. split; [exact Hlog|]. split; [exact Hrec|].
  destruct Hrec as [(Hk & Ho & Ht & Hr & Hne & Hrl)
    | (k & -> & [(Hk & Hlen & Hrl) | [(Hk & Ht & Hrl) | (Hk & Ht & Hrl)]])];
    simpl; rewrite ?Hk, ?Ho; unfold JS.nl, JS.crnl, JS.LF, JS.CR in *;
    repeat split; intros; try discriminate; try congruence; try lia.
  exfalso. assert (E : c_text c = "Enter") by congruence.
  rewrite E in Hlen. discriminate.
Qed.

(** ** Error texts, own files, session ids *)

(** A text is one line without a line feed, or a first line without a
    line feed, a line feed and the rest. *)
Lemma split_shape (s : string) :
  (JS.includes JS.nl s = false /\ JS.split JS.LF s = [s]) \/
  (exists first rest : string,
     s = first +:+ JS.nl +:+ rest /\
     JS.includes JS.nl first = false /\
     JS.split JS.LF s = first :: JS.split JS.LF rest).
Proof.
  induction s as [|a s IH]; [now left|].
  destruct (decide (a = JS.LF)) as [->|Ha].
  - right. exists "", s. split; [reflexivity|]. split; reflexivity.
  - assert (Hstart : JS.startsWith JS.nl (String a s) = false).
    { simpl. rewrite bool_decide_eq_false_2 by congruence. reflexivity. }
    destruct IH as [(Hno & Hsplit) | (first & rest & -> & Hno & Hsplit)].
    + left. split.
      * rewrite includes_cons, Hstart, Hno. reflexivity.
      * simpl. rewrite bool_decide_eq_false_2 by exact Ha.
        now rewrite Hsplit.
    + right. exists (String a first), rest. split; [reflexivity|]. split.
      * rewrite includes_cons, Hno, orb_false_r.
        simpl. rewrite bool_decide_eq_false_2 by congruence. reflexivity.
      * simpl. rewrite bool_decide_eq_false_2 by exact Ha.
        now rewrite Hsplit.
Qed.

(** X16. The error record loses nothing of the error text: without a
    stack the message is the whole text, which has no line feed; with a
    stack the text is the message, a line feed and the stack, and the
    message has no line feed. *)
Theorem X16_message_and_stack_rebuild_text (filePath errorText : string)
    (w : World) :
  exists (w' : World) (rec : ErrorLogEntry.t),
    logPythonError filePath errorText w = (Ok tt, w') /\
    errorLog (this w') = (errorLog (this w) ++ [rec])%list /\
    JS.includes JS.nl (ErrorLogEntry.message rec) = false /\
    errorText
    = match ErrorLogEntry.stack rec with
      | Some stack => ErrorLogEntry.message rec +:+ JS.nl +:+ stack
      | None => ErrorLogEntry.message rec
      end.
Proof.
  destruct (logPythonError_run filePath errorText w)
    as (w' & ts & code & Hrun & Hthis & _).
  exists w', (pythonError errorText ts code). split; [exact Hrun|].
  split; [now rewrite Hthis|].
  unfold pythonError, errorMessageOf, errorStackOf. simpl.
  destruct (split_shape errorText)
    as [(Hno & ->) | (first & rest & Htext & Hno & ->)].
  - now split.
  - pose proof (split_nonempty JS.LF rest) as Hne.
    pose proof (join_split rest) as Hjoin.
    destruct (JS.split JS.LF rest) as [|x xs]; [done|].
    split; [exact Hno|]. now rewrite Hjoin.
Qed.

(** X17. The logger does not log what lies in its log folders. In every
    reachable world the folder the logs of a document go to has ".logs" in
    its path, so a document whose file name begins with that folder is
    ignored, whatever the student and the session, and a change event for
    it leaves the world as it is. *)
Theorem X17_log_folder_is_ignored (w : World) (d doc : TextDocument)
    (rest : string) :
  reachable w ->
  fileName doc = docFolder (this w) d +:+ rest ->
  JS.includes ".logs" (logFolder (this w)) = true /\
  (forall l : Logger, shouldIgnoreDocument l doc = true) /\
  (forall (w' : World) (cs : list ContentChange),
     onDidChangeTextDocument (mkChangeEvent doc cs) w' = (Ok tt, w')).
Proof.
  intros Hr Hname.
  destruct (reachable_steady w Hr) as (_ & _ & _ & _ & Hfolder).
  split; [exact Hfolder|].
  assert (Hig : forall l, shouldIgnoreDocument l doc = true).
  { intros l. unfold shouldIgnoreDocument. rewrite Hname.
    rewrite (includes_app_l _ _ _ (docFolder_logs _ d Hfolder)).
    reflexivity. }
  split; [exact Hig|].
  intros w' cs. unfold onDidChangeTextDocument, bind at 1, getThis.
  simpl document. rewrite Hig, orb_true_r. reflexivity.
Qed.

Lemma X17_log_folder_witness :
  let w := snd (constructor Sample.atLimit) in
  let doc := mkTextDocument Sample.part1 "json" "file" [] (Some "/ws") in
  JS.includes ".logs" (logFolder (this w)) = true /\
  (forall l : Logger, shouldIgnoreDocument l doc = true) /\
  (forall (w' : World) (cs : list ContentChange),
     onDidChangeTextDocument (mkChangeEvent doc cs) w' = (Ok tt, w')).
Proof.
  intros w doc.
  apply (X17_log_folder_is_ignored w Sample.a_py doc
           "/anonymous_a.py_session_20250101_000000_part1.json").
  - exact sample_reachable.
  - vm_compute. reflexivity.
Defined.

(** ** Timestamps stay in order *)

Lemma chronoL_weaken (clk : nat -> Z) (n n' : nat) (ts : list Z) :
  (n <= n')%nat -> chronoL clk n ts -> chronoL clk n' ts.
Proof.
  intros Hn (Hs & Hb). split; [exact Hs|].
  eapply Forall_impl; [exact Hb|]. intros t Ht k Hk. apply Ht. lia.
Qed.

Lemma StronglySorted_snoc_le (ts : list Z) (x : Z) :
  StronglySorted Z.le ts -> Forall (fun t => t <= x) ts ->
  StronglySorted Z.le (ts ++ [x]).
Proof.
  induction 1 as [|t ts Hs IH Ht]; intros Hall; simpl.
  - repeat constructor.
  - inversion Hall as [|? ? Htx Hrest]; subst.
    constructor; [now apply IH|].
    apply Forall_app. split; [exact Ht | now repeat constructor].
Qed.

Lemma chronoL_push (clk : nat -> Z) (n n' k' : nat) (ts : list Z) :
  (forall i j : nat, (i <= j)%nat -> clk i <= clk j) ->
  chronoL clk n ts -> (n <= k')%nat -> (k' < n')%nat ->
  chronoL clk n' (ts ++ [clk k']).
Proof.
  intros Hmono (Hs & Hb) Hk Hn. split.
  - apply StronglySorted_snoc_le; [exact Hs|].
    eapply Forall_impl; [exact Hb|]. intros t Ht. now apply Ht.
  - apply Forall_app. split.
    + eapply Forall_impl; [exact Hb|]. intros t Ht k Hk'. apply Ht. lia.
    + constructor; [|constructor]. intros k Hk'. apply Hmono. lia.
Qed.

#[local] Instance ticks_preorder : PreOrder ticks.
Proof.
  split.
  - intros w. split; [reflexivity|]. split; [lia | tauto].
  - intros a b c (C1 & R1 & H1) (C2 & R2 & H2).
    split; [congruence|]. split; [lia|].
    intros Hm Ha. apply H2; [|now apply H1].
    unfold monotoneClock. rewrite C1. exact Hm.
Qed.

(** The logs are the same and the clock was at most read. *)
Lemma ticks_same_logs (w w' : World) :
  clock w' = clock w -> (clockReads w <= clockReads w')%nat ->
  editLog (this w') = editLog (this w) ->
  errorLog (this w') = errorLog (this w) ->
  executionLog (this w') = executionLog (this w) ->
  ticks w w'.
Proof.
  intros Hc Hr H1 H2 H3. split; [exact Hc|]. split; [exact Hr|].
  intros _ (C1 & C2 & C3). unfold chrono. rewrite Hc, H1, H2, H3.
  repeat split; eapply chronoL_weaken; eauto; tauto.
Qed.

Lemma ticks_modifyThis (f : Logger -> Logger) :
  (forall l, sameLogs l (f l)) -> respects ticks (modifyThis f).
Proof.
  intros Hf w. destruct (Hf (this w)) as (H1 & H2 & H3).
  now apply ticks_same_logs.
Qed.

Lemma ticks_saveLog : respects ticks saveLog.
Proof.
  intros w. destruct (saveLog_run w) as (t & -> & _).
  now apply ticks_same_logs.
Qed.

Ltac ticks_quiet := intros w; now apply ticks_same_logs.

Ltac ticking :=
  repeat lazymatch goal with
  | |- forall _, _ => intro
  | |- respects ticks (bind _ _) => apply (respects_bind ticks)
  | |- respects ticks (ret _) => apply (respects_ret ticks)
  | |- respects ticks (throw _) => apply (respects_throw ticks)
  | |- respects ticks getThis => apply (respects_getThis ticks)
  | |- respects ticks getWorld => apply (respects_getWorld ticks)
  | |- respects ticks Date_now => ticks_quiet
  | |- respects ticks (fs_existsSync _) => ticks_quiet
  | |- respects ticks (fs_mkdirSync _) => ticks_quiet
  | |- respects ticks (console_error _ _) => ticks_quiet
  | |- respects ticks (process_kill _) => ticks_quiet
  | |- respects ticks (clearTimeout _) => ticks_quiet
  | |- respects ticks (setTimeout _) => ticks_quiet
  | |- respects ticks (modifyThis _) =>
      apply ticks_modifyThis; intros ?l; repeat split
  | |- respects ticks saveLog => apply ticks_saveLog
  | |- respects ticks (forEach _ _) => apply (respects_forEach ticks)
  | |- respects ticks (if ?b then _ else _) => destruct b
  | |- respects ticks (match ?x with _ => _ end) => destruct x
  end.

Lemma ticks_scheduleSave : respects ticks scheduleSave.
Proof. unfold scheduleSave. ticking. Qed.

Lemma ticks_onDocumentChange (d : TextDocument) :
  respects ticks (onDocumentChange d).
Proof.
  unfold onDocumentChange, ensureFolder. cbv zeta. ticking.
Qed.

(** Appending a record stamped with a reading taken since the call began. *)
Lemma ticks_push (w w' : World) (k : nat) :
  clock w' = clock w ->
  (clockReads w <= k)%nat -> (k < clockReads w')%nat ->
  (EditLogEntry.timestamp <$> editLog (this w')
   = EditLogEntry.timestamp <$> editLog (this w) \/
   EditLogEntry.timestamp <$> editLog (this w')
   = ((EditLogEntry.timestamp <$> editLog (this w)) ++ [clock w k])%list) ->
  (ErrorLogEntry.timestamp <$> errorLog (this w')
   = ErrorLogEntry.timestamp <$> errorLog (this w) \/
   ErrorLogEntry.timestamp <$> errorLog (this w')
   = ((ErrorLogEntry.timestamp <$> errorLog (this w)) ++ [clock w k])%list) ->
  (ExecutionLogEntry.timestamp <$> executionLog (this w')
   = ExecutionLogEntry.timestamp <$> executionLog (this w) \/
   ExecutionLogEntry.timestamp <$> executionLog (this w')
   = ((ExecutionLogEntry.timestamp <$> executionLog (this w)) ++ [clock w k])%list) ->
  ticks w w'.
Proof.
  intros Hc Hk Hk' H1 H2 H3. split; [exact Hc|]. split; [lia|].
  intros Hm (C1 & C2 & C3). unfold chrono. rewrite Hc.
  split; [|split].
  - destruct H1 as [-> | ->];
      [eapply chronoL_weaken; [|exact C1]; lia | now apply (chronoL_push _ (clockReads w))].
  - destruct H2 as [-> | ->];
      [eapply chronoL_weaken; [|exact C2]; lia | now apply (chronoL_push _ (clockReads w))].
  - destruct H3 as [-> | ->];
      [eapply chronoL_weaken; [|exact C3]; lia | now apply (chronoL_push _ (clockReads w))].
Qed.

Lemma ticks_logEdit (edit : ContentChange) (d : TextDocument) :
  respects ticks (logEdit edit d).
Proof.
  intros w. unfold logEdit. unfold bind at 1, getCurrentTimestamp, Date_now.
  unfold bind at 1, lineAt.
  destruct (doc_lines d !! line (start (c_range edit))) as [l|].
  - unfold ret at 1. cbv zeta. unfold bind at 1, modifyThis.
    match goal with |- context [scheduleSave ?w2] =>
      transitivity w2; [|apply ticks_scheduleSave] end.
    apply (ticks_push _ _ (clockReads w)); simpl; try reflexivity; try lia;
      try (now left).
    right. now rewrite fmap_app.
  - unfold throw. simpl. now apply ticks_same_logs; simpl; try lia.
Qed.

Lemma ticks_logKeyInput (key : string) (d : TextDocument) :
  respects ticks (logKeyInput key d).
Proof.
  intros w. unfold logKeyInput. unfold bind at 1, getWorld.
  destruct (activeTextEditor w) as [pos|]; [|reflexivity].
  unfold bind at 1, getCurrentTimestamp, Date_now.
  unfold bind at 1, lineAt.
  destruct (doc_lines d !! line pos) as [l|].
  - unfold ret at 1. cbv zeta. unfold bind at 1, modifyThis.
    unfold bind at 1, getThis.
    match goal with |- context [if ?b then scheduleSave else ret tt] =>
      destruct b end.
    + match goal with |- context [scheduleSave ?w2] =>
        transitivity w2; [|apply ticks_scheduleSave] end.
      apply (ticks_push _ _ (clockReads w)); simpl; try reflexivity; try lia;
        try (now left).
      right. now rewrite fmap_app.
    + unfold ret. simpl snd.
      apply (ticks_push _ _ (clockReads w)); simpl; try reflexivity; try lia;
        try (now left).
      right. now rewrite fmap_app.
  - unfold throw. simpl. now apply ticks_same_logs; simpl; try lia.
Qed.

Lemma ticks_logPythonError (filePath errorMessage : string) :
  respects ticks (logPythonError filePath errorMessage).
Proof.
  intros w. unfold logPythonError.
  unfold getCurrentTimestamp, Date_now, fs_existsSync, fs_readFileSync,
    modifyThis, bind, ret.
  destruct (bool_decide (1 < length (JS.split JS.LF errorMessage))%nat);
    simpl; destruct (fs w !! filePath) as [nd|] eqn:Hf; simpl; rewrite ?Hf;
    simpl;
    (apply (ticks_push _ _ (clockReads w)); simpl; try reflexivity; try lia;
     try (now left); right; now rewrite fmap_app).
Qed.

Lemma ticks_finishExecution (exitCode : Z) (errorMessage : option string) :
  respects ticks (finishExecution exitCode errorMessage).
Proof.
  intros w. unfold finishExecution. unfold bind at 1, getThis.
  destruct (currentExecution (this w)) as [cur|]; [|reflexivity].
  unfold bind at 1, Date_now.
  unfold bind at 1, getCurrentTimestamp, Date_now.
  unfold bind at 1, modifyThis. cbv zeta.
  match goal with |- ticks w (snd (?rest ?w2)) =>
    transitivity w2;
      [|assert (Hrest : respects ticks rest); [|exact (Hrest w2)]] end.
  - apply (ticks_push _ _ (S (clockReads w))); simpl; try reflexivity;
      try lia; try (now left).
    right. now rewrite fmap_app.
  - ticking;
      first [apply ticks_logPythonError | apply ticks_scheduleSave
            | intros w0; now apply ticks_same_logs].
Qed.

Lemma ticks_startPythonExecution (filePath : string) :
  respects ticks (startPythonExecution filePath).
Proof.
  unfold startPythonExecution. apply (respects_bind ticks);
    [apply respects_getThis; apply _|]. intros l.
  apply (respects_bind ticks).
  { ticking; apply ticks_finishExecution. }
  intros _ w. unfold bind at 1, Date_now. unfold bind at 1, modifyThis.
  unfold bind at 1, getWorld. unfold bind at 1.
  match goal with |- context [findDocument filePath (textDocuments ?w2)] =>
    set (w1 := w2) end.
  assert (H1 : ticks w w1) by (now apply ticks_same_logs; simpl; try lia).
  assert (Hdoc : exists res w3,
            match findDocument filePath (textDocuments w1) with
            | Some document => onDocumentChange document
            | None => ret tt
            end w1 = (res, w3) /\ ticks w w3).
  { destruct (findDocument filePath (textDocuments w1)) as [doc|].
    - pose proof (ticks_onDocumentChange doc w1) as Hd.
      destruct (onDocumentChange doc w1) as [res w3]. exists res, w3.
      split; [reflexivity|]. now transitivity w1.
    - exists (Ok tt), w1. now split. }
  destruct Hdoc as (res & w3 & -> & Hdoc).
  destruct res as [[]|e|]; [|exact Hdoc..].
  unfold bind at 1, getCurrentTimestamp, Date_now.
  unfold bind at 1, modifyThis.
  etransitivity; [exact Hdoc|].
  match goal with |- context [scheduleSave ?w4] =>
    transitivity w4; [|apply ticks_scheduleSave] end.
  apply (ticks_push _ _ (clockReads w3)); simpl; try reflexivity; try lia;
    try (now left).
  right. now rewrite fmap_app.
Qed.

Lemma ticks_onContentChange (d : TextDocument) (c : ContentChange) :
  respects ticks (onContentChange d c).
Proof.
  unfold onContentChange.
  ticking; first [apply ticks_logEdit | apply ticks_logKeyInput].
Qed.

Lemma ticks_perform (c : Call) : respects ticks (perform c).
Proof.
  destruct c; simpl.
  - unfold onDidChangeTextDocument.
    ticking; first [apply ticks_onDocumentChange | apply ticks_onContentChange].
  - apply ticks_onDocumentChange.
  - apply ticks_logEdit.
  - apply ticks_logKeyInput.
  - unfold loadStudentId. ticking.
  - apply ticks_startPythonExecution.
  - unfold setPythonProcess. ticking.
  - unfold onStdoutData. ticking.
  - unfold onStderrData. ticking.
  - unfold onProcessExit. apply ticks_finishExecution.
  - unfold onProcessError. ticking. apply ticks_finishExecution.
  - apply ticks_saveLog.
  - unfold writeFileCallback. ticking.
Qed.

Lemma reaches_ticks (w w' : World) : reaches w w' -> ticks w w'.
Proof.
  induction 1 as [w | w w1 c _ IH | w w1 w2 _ IH (Hthis & _ & Hc & Hr)].
  - reflexivity.
  - etransitivity; [exact IH | apply ticks_perform].
  - etransitivity; [exact IH|].
    apply ticks_same_logs; rewrite ?Hthis; auto. lia.
Qed.

Lemma constructor_chrono (w0 : World) : chrono (snd (constructor w0)).
Proof.
  destruct (constructor_run w0) as (w' & -> & _ & _ & H1 & H2 & H3 & _).
  unfold chrono. simpl snd. rewrite H1, H2, H3.
  repeat split; constructor.
Qed.

(** X18. When the clock never goes back, the timestamps of each log are in
    non-decreasing order in every reachable world, and none is later than
    the next reading of the clock. *)
Theorem X18_timestamps_in_order (w : World) :
  reachable w ->
  monotoneClock w ->
  StronglySorted Z.le (EditLogEntry.timestamp <$> editLog (this w)) /\
  StronglySorted Z.le (ErrorLogEntry.timestamp <$> errorLog (this w)) /\
  StronglySorted Z.le
    (ExecutionLogEntry.timestamp <$> executionLog (this w)) /\
  Forall (fun r => EditLogEntry.timestamp r <= clock w (clockReads w))
    (editLog (this w)) /\
  Forall (fun r => ErrorLogEntry.timestamp r <= clock w (clockReads w))
    (errorLog (this w)) /\
  Forall (fun r => ExecutionLogEntry.timestamp r <= clock w (clockReads w))
    (executionLog (this w)).
Proof.
  intros (w0 & _ & Hrun) Hm.
  destruct (reaches_ticks _ _ Hrun) as (Hc & _ & Hchrono).
  destruct Hchrono as ((S1 & B1) & (S2 & B2) & (S3 & B3)).
  - unfold monotoneClock. rewrite <- Hc. exact Hm.
  - apply constructor_chrono.
  - split; [exact S1|]. split; [exact S2|]. split; [exact S3|].
    rewrite Forall_fmap in B1. rewrite Forall_fmap in B2.
    rewrite Forall_fmap in B3.
    split; [|split]; (eapply Forall_impl; [eassumption|]);
      intros r Hr; simpl in Hr; now apply Hr.
Qed.

Lemma X18_timestamps_witness :
  let w := snd (perform (ProcessExit (Some 1))
             (snd (perform (StartPythonExecution "/ws/a.py")
                (snd (constructor Sample.atLimit))))) in
  StronglySorted Z.le (EditLogEntry.timestamp <$> editLog (this w)) /\
  StronglySorted Z.le (ErrorLogEntry.timestamp <$> errorLog (this w)) /\
  StronglySorted Z.le
    (ExecutionLogEntry.timestamp <$> executionLog (this w)) /\
  Forall (fun r => EditLogEntry.timestamp r <= clock w (clockReads w))
    (editLog (this w)) /\
  Forall (fun r => ErrorLogEntry.timestamp r <= clock w (clockReads w))
    (errorLog (this w)) /\
  Forall (fun r => ExecutionLogEntry.timestamp r <= clock w (clockReads w))
    (executionLog (this w)).
Proof.
  intros w. apply X18_timestamps_in_order.
  - exists Sample.atLimit. split; [reflexivity|].
    apply reaches_call, reaches_call, reaches_refl.
  - intros i j Hij. change (1000 * Z.of_nat i <= 1000 * Z.of_nat j). lia.
Defined.

(** ** Session ids, keystroke cadence *)







Lemma recordedFor_listenerRecord (c : ContentChange) (r : EditLogEntry.t) :
  recordedFor c r -> listenerRecord r.
Proof.
  intros [(_ & Ho & _) | (k & -> & _)]; [now right | left; simpl; eauto].
Qed.

Lemma forEach_listenerRecords (d : TextDocument) (cs : list ContentChange) :
  forall w : World,
    Forall listenerRecord (editLog (this w)) ->
    Forall listenerRecord
      (editLog (this (snd (forEach cs (onContentChange d) w)))).
Proof.
  induction cs as [|c cs IH]; intros w Hall; [exact Hall|].
  simpl forEach. unfold bind.
  destruct (onContentChange_cases d c w)
    as [(res & w' & -> & Hthis) | (w' & r & -> & Hlog & Hrec)].
  - destruct res as [[]|e|]; simpl; [apply IH|..]; now rewrite Hthis.
  - apply IH. rewrite Hlog. apply Forall_app. split; [exact Hall|].
    constructor; [|constructor]. now apply (recordedFor_listenerRecord c).
Qed.

(** X14. The change listener only ever adds key records and edit records
    labelled "replace": if the edit log holds nothing else before a change
    event, it holds nothing else after it, however the event ends. *)
Theorem X14_listener_records_keys_and_replacements (e : TextDocumentChangeEvent)
    (w : World) :
  Forall listenerRecord (editLog (this w)) ->
  Forall listenerRecord
    (editLog (this (snd (onDidChangeTextDocument e w)))).
Proof.
  intros Hall. unfold onDidChangeTextDocument, bind at 1, getThis.
  destruct (negb (bool_decide (languageId (document e) = "python"))
            || shouldIgnoreDocument (this w) (document e)); [exact Hall|].
  destruct (onDocumentChange_run (document e) w) as (L & F & t & Hdoc & HL & _).
  unfold bind. rewrite Hdoc. apply forEach_listenerRecords.
  destruct HL as [-> | ->]; exact Hall.
Qed.

Lemma X14_listener_records_witness :
  Forall listenerRecord
    (editLog (this (snd (onDidChangeTextDocument (SampleTyping.keystroke 1)
                           (SampleTyping.before 1 SampleTyping.fresh))))).
Proof.
  apply X14_listener_records_keys_and_replacements. constructor.
Defined.

Lemma onContentChange_bulkDelete (d : TextDocument) (c : ContentChange) :
  isBulkDelete c -> onContentChange d c = ret tt.
Proof.
  intros (Ht & Hrl). unfold onContentChange. rewrite Ht. simpl String.length.
  rewrite (bool_decide_eq_false_2 (1 <= 0)%nat) by lia.
  rewrite (bool_decide_eq_false_2 (0 = 1)%nat) by lia.
  rewrite (bool_decide_eq_false_2 (c_rangeLength c = 1%nat)) by exact Hrl.
  rewrite andb_false_r. reflexivity.
Qed.

Lemma forEach_bulkDelete (d : TextDocument) (l : list ContentChange) (w : World) :
  Forall isBulkDelete l -> forEach l (onContentChange d) w = (Ok tt, w).
Proof.
  induction 1 as [|c l Hc _ IH]; [reflexivity|].
  simpl. rewrite (onContentChange_bulkDelete d c Hc). exact IH.
Qed.

(** X15. A change that inserts nothing and deletes two characters or
    more (a deleted selection or line), or nothing at all, is not
    recorded: the listener returns with the three logs as they were. Only
    the deletion of exactly one character is recorded. *)
Theorem X15_bulk_deletion_is_not_logged (w : World)
    (e : TextDocumentChangeEvent) :
  Forall isBulkDelete (contentChanges e) ->
  exists w' : World,
    onDidChangeTextDocument e w = (Ok tt, w') /\
    sameLogs (this w) (this w').
Proof.
  intros Hdel. unfold onDidChangeTextDocument, bind at 1, getThis.
  destruct (negb (bool_decide (languageId (document e) = "python"))
            || shouldIgnoreDocument (this w) (document e)).
  - exists w. split; [reflexivity | repeat split].
  - destruct (onDocumentChange_run (document e) w) as (L & F & t & Hdoc & HL & _).
    unfold bind. rewrite Hdoc. rewrite forEach_bulkDelete by exact Hdel.
    eexists. split; [reflexivity|].
    destruct HL as [-> | ->]; repeat split.
Qed.

Lemma X15_bulk_deletion_witness :
  exists w' : World,
    onDidChangeTextDocument
      (mkChangeEvent Sample.a_py
         [mkContentChange (mkRange (mkPosition 0 0) (mkPosition 0 5)) 5 ""])
      Sample.untargeted = (Ok tt, w') /\
    sameLogs (this Sample.untargeted) (this w').
Proof.
  apply X15_bulk_deletion_is_not_logged.
  repeat constructor. simpl. lia.
Defined.
